(** * The referral dashboard of admin-grow100x

    A shallow embedding of the client component [AdminPanel] as it is written
    in [src/app/page.tsx] (login / register toggle) and in its referral-only
    sibling (one [handleSubmit] form), with the properties the specification
    states about session bootstrap, credential submission, referral fetches,
    code generation, logout and the loading flag.

    Values that travel over the network or through local storage are plain
    JavaScript values; the handlers are [async] functions, embedded as trees
    of effects whose [await] nodes wait for the outcome of a request. *)

From Stdlib Require Import ZArith Ascii.
From stdpp Require Import base strings pretty list gmap.

Local Open Scope Z_scope.
Local Open Scope string_scope.
Local Open Scope list_scope.

(** ** JavaScript values *)

(** What [response.data], [localStorage] blobs after [JSON.parse], and the
    component's state slots hold at run time.  Numbers are integers: the
    handlers never compute with them, they only test and forward them. *)
#[local] Unset Elimination Schemes.
Inductive value : Type :=
| Undefined
| Null
| Bool (b : bool)
| Num (n : Z)
| Str (s : string)
| Arr (items : list value)
| Obj (fields : list (string * value)).
#[local] Set Elimination Schemes.

(** The condition of [if (x)], [x || y] and [!x]. *)
Definition truthy (v : value) : bool :=
  match v with
  | Undefined | Null => false
  | Bool b => b
  | Num n => negb (Z.eqb n 0)
  | Str "" => false
  | Str _ | Arr _ | Obj _ => true
  end.

(** [a || b] *)
Definition or_else (a b : value) : value := if truthy a then a else b.

Definition nullish (v : value) : bool :=
  match v with Undefined | Null => true | _ => false end.

(** Own property of an object literal; a key that is absent reads as
    [undefined]. *)
Fixpoint field (key : string) (fields : list (string * value)) : value :=
  match fields with
  | [] => Undefined
  | (k, v) :: rest => if String.eqb key k then v else field key rest
  end.

(** What can be thrown: axios rejects with an error that carries the
    response body when the server answered and nothing when it did not; the
    engine throws [TypeError] on a property read of [null] or [undefined] and
    [SyntaxError] from [JSON.parse]. *)
Inductive exn : Type :=
| AxiosError (response : option value)
| TypeError
| SyntaxError.

(** [v.key].  None of the keys the component reads ([success], [user],
    [data], [id], [message]) exists on a boolean, number, string or array, so
    these read as [undefined]. *)
Definition get (v : value) (key : string) : exn + value :=
  match v with
  | Undefined | Null => inl TypeError
  | Obj fields => inr (field key fields)
  | Bool _ | Num _ | Str _ | Arr _ => inr Undefined
  end.

(** [v?.key] *)
Definition get_opt (v : value) (key : string) : value :=
  match get v key with inl _ => Undefined | inr x => x end.

(** String conversion, as a template literal performs it. *)
Fixpoint to_string (v : value) : string :=
  match v with
  | Undefined => "undefined"
  | Null => "null"
  | Bool true => "true"
  | Bool false => "false"
  | Num n => pretty n
  | Str s => s
  | Arr items =>
      String.concat ","
        (map (fun x => match x with
                       | Undefined | Null => ""
                       | _ => to_string x
                       end) items)
  | Obj _ => "[object Object]"
  end.

(** ** The component's state and its surroundings *)

Record FormData : Type := mkFormData { email : string; fullName : string }.

(** The [useState] slots of [AdminPanel].  The referral-only variant has no
    [showLogin] / [showRegister] slots: it never writes them and its render
    function never reads them. *)
Record View : Type := mkView {
  user : value;
  referralData : value;
  loading : bool;
  error : value;
  showLogin : bool;
  showRegister : bool;
  formData : FormData
}.

Inductive verb : Type := GET | POST.

Record request : Type := mkRequest {
  method : verb;
  url : string;
  body : value;
  headers : list (string * string)
}.

(** How an awaited request settles: [Resolved d] gives [response.data = d];
    [Rejected r] throws [AxiosError r] at the [await]. *)
Inductive outcome : Type :=
| Resolved (data : value)
| Rejected (response : option value).

(** View state, local storage, the requests issued so far (oldest first) and
    the console log. *)
Record World : Type := mkWorld {
  view : View;
  localStorage : gmap string string;
  sent : list request;
  console : list (string * exn)
}.

(** The state setters, the two storage writes and [console.error].  A
    storage write is taken to succeed: quota and privacy-mode exceptions of
    [setItem] are outside this model. *)
Inductive action : Type :=
| setUser (v : value)
| setReferralData (v : value)
| setLoading (b : bool)
| setError (v : value)
| setShowLogin (b : bool)
| setShowRegister (b : bool)
| setFormData (f : FormData)
| setItem (key text : string)
| removeItem (key : string)
| console_error (label : string) (e : exn).

Definition on_view (f : View → View) (w : World) : World :=
  mkWorld (f (view w)) (localStorage w) (sent w) (console w).

Definition apply (a : action) (w : World) : World :=
  match a with
  | setUser u =>
      on_view (fun v => mkView u (referralData v) (loading v) (error v)
                          (showLogin v) (showRegister v) (formData v)) w
  | setReferralData d =>
      on_view (fun v => mkView (user v) d (loading v) (error v)
                          (showLogin v) (showRegister v) (formData v)) w
  | setLoading b =>
      on_view (fun v => mkView (user v) (referralData v) b (error v)
                          (showLogin v) (showRegister v) (formData v)) w
  | setError e =>
      on_view (fun v => mkView (user v) (referralData v) (loading v) e
                          (showLogin v) (showRegister v) (formData v)) w
  | setShowLogin b =>
      on_view (fun v => mkView (user v) (referralData v) (loading v) (error v)
                          b (showRegister v) (formData v)) w
  | setShowRegister b =>
      on_view (fun v => mkView (user v) (referralData v) (loading v) (error v)
                          (showLogin v) b (formData v)) w
  | setFormData f =>
      on_view (fun v => mkView (user v) (referralData v) (loading v) (error v)
                          (showLogin v) (showRegister v) f) w
  | setItem key text =>
      mkWorld (view w) (<[key:=text]> (localStorage w)) (sent w) (console w)
  | removeItem key =>
      mkWorld (view w) (delete key (localStorage w)) (sent w) (console w)
  | console_error label e =>
      mkWorld (view w) (localStorage w) (sent w) (console w ++ [(label, e)])
  end.

Definition record_request (r : request) (w : World) : World :=
  mkWorld (view w) (localStorage w) (sent w ++ [r]) (console w).

(** The initial values given to [useState]. *)
Definition initial_view : View :=
  mkView Null Null false (Str "") true false (mkFormData "" "").

(** ** Asynchronous handlers as effect trees *)

(** An [async] function body.  [Await r k] issues [r] and suspends until it
    settles; [Fork child k] calls an [async] function without awaiting it: the
    child runs up to its first [await], the caller goes on, and nothing the
    child throws reaches the caller. *)
Inductive task (A : Type) : Type :=
| Ret (a : A)
| Throw (e : exn)
| Do (a : action) (k : task A)
| GetItem (key : string) (k : option string → task A)
| Parse (text : string) (k : option value → task A)
| Stringify (v : value) (k : string → task A)
| Await (r : request) (k : outcome → task A)
| Fork (child : task unit) (k : task A).

Arguments Ret {A} a.
Arguments Throw {A} e.
Arguments Do {A} a k.
Arguments GetItem {A} key k.
Arguments Parse {A} text k.
Arguments Stringify {A} v k.
Arguments Await {A} r k.
Arguments Fork {A} child k.

Fixpoint bind {A B : Type} (t : task A) (f : A → task B) : task B :=
  match t with
  | Ret a => f a
  | Throw e => Throw e
  | Do a k => Do a (bind k f)
  | GetItem key k => GetItem key (fun x => bind (k x) f)
  | Parse text k => Parse text (fun x => bind (k x) f)
  | Stringify v k => Stringify v (fun x => bind (k x) f)
  | Await r k => Await r (fun x => bind (k x) f)
  | Fork child k => Fork child (bind k f)
  end.

#[global] Instance task_ret : MRet task := @Ret.
#[global] Instance task_bind : MBind task := fun A B f t => bind t f.

(** [try { t } catch (err) { handler err }] *)
Fixpoint try_catch {A : Type} (t : task A) (handler : exn → task A) : task A :=
  match t with
  | Ret a => Ret a
  | Throw e => handler e
  | Do a k => Do a (try_catch k handler)
  | GetItem key k => GetItem key (fun x => try_catch (k x) handler)
  | Parse text k => Parse text (fun x => try_catch (k x) handler)
  | Stringify v k => Stringify v (fun x => try_catch (k x) handler)
  | Await r k => Await r (fun x => try_catch (k x) handler)
  | Fork child k => Fork child (try_catch k handler)
  end.

(** [try { t } finally { cleanup }]: the cleanup runs on both exits and a
    pending exception is rethrown after it. *)
Fixpoint finally {A : Type} (t : task A) (cleanup : task unit) : task A :=
  match t with
  | Ret a => cleanup ;; Ret a
  | Throw e => cleanup ;; Throw e
  | Do a k => Do a (finally k cleanup)
  | GetItem key k => GetItem key (fun x => finally (k x) cleanup)
  | Parse text k => Parse text (fun x => finally (k x) cleanup)
  | Stringify v k => Stringify v (fun x => finally (k x) cleanup)
  | Await r k => Await r (fun x => finally (k x) cleanup)
  | Fork child k => Fork child (finally k cleanup)
  end.

Definition perform (a : action) : task unit := Do a (Ret tt).

(** An expression that may throw, used as a statement. *)
Definition eval {A : Type} (x : exn + A) : task A :=
  match x with inl e => Throw e | inr a => Ret a end.

(** [await axios.get(...)] / [await axios.post(...)]: evaluates to
    [response.data]. *)
Definition await (r : request) : task value :=
  Await r (fun o => match o with
                    | Resolved data => Ret data
                    | Rejected response => Throw (AxiosError response)
                    end).

Definition JSON_parse_ (text : string) : task value :=
  Parse text (fun x => match x with
                       | Some v => Ret v
                       | None => Throw SyntaxError
                       end).

(** ** Running a handler to completion *)

(** What the browser and the server contribute.  [network n r] is how the
    request [r] settles when [n] requests were issued before it;
    [JSON_parse] is [None] where [JSON.parse] throws; [JSON_stringify v] is
    the text [localStorage.setItem] stores for [JSON.stringify(v)]. *)
Record Platform : Type := mkPlatform {
  network : nat → request → outcome;
  JSON_parse : string → option value;
  JSON_stringify : value → string
}.

(** Runs the handler with every request answered as it is issued.  A forked
    call is run to its end before its caller continues; the component only
    forks as the last statement of the mount effect. *)
Fixpoint run {A : Type} (p : Platform) (t : task A) (w : World) : (exn + A) * World :=
  match t with
  | Ret a => (inr a, w)
  | Throw e => (inl e, w)
  | Do a k => run p k (apply a w)
  | GetItem key k => run p (k (localStorage w !! key)) w
  | Parse text k => run p (k (JSON_parse p text)) w
  | Stringify v k => run p (k (JSON_stringify p v)) w
  | Await r k => run p (k (network p (length (sent w)) r)) (record_request r w)
  | Fork child k => run p k (run p child w).2
  end.

(** ** The handlers shared by both variants *)

Definition API_BASE_URL : string := "https://api.grow100x.ai/api/v1".

Definition JSON_stringify_ (v : value) : task string :=
  Stringify v (fun text => Ret text).

(** [err.response?.data?.message] *)
Definition server_message (err : exn) : value :=
  match err with
  | AxiosError (Some data) => get_opt data "message"
  | AxiosError None | TypeError | SyntaxError => Undefined
  end.

Definition fetchReferralData (userId : value) : task unit :=
  try_catch
    (response_data ← await
       (mkRequest GET (API_BASE_URL +:+ "/referral/admin/summary") Undefined
          [("Authorization", "Bearer " +:+ to_string userId)]);
     success ← eval (get response_data "success");
     if truthy success then
       data ← eval (get response_data "data");
       perform (setReferralData data)
     else Ret tt)
    (fun err => perform (console_error "Failed to fetch referral data:" err)).

(** [v] is the render whose closure the click handler captured: [user] is
    read from it before and after the [await]. *)
Definition generateReferralLink (v : View) : task unit :=
  if negb (truthy (user v)) then Ret tt
  else
    perform (setLoading true);;
    finally
      (try_catch
         (id ← eval (get (user v) "id");
          response_data ← await
            (mkRequest GET (API_BASE_URL +:+ "/referral/admin/code") Undefined
               [("Authorization", "Bearer " +:+ to_string id)]);
          success ← eval (get response_data "success");
          if truthy success then
            id' ← eval (get (user v) "id");
            fetchReferralData id'
          else Ret tt)
         (fun err => perform (setError (Str "Failed to generate referral link"))))
      (perform (setLoading false)).

(** ** [src/app/page.tsx]: the panel with a login / register toggle *)

Module Admin.

(** The effect that runs once after the first render. *)
Definition onMount : task unit :=
  GetItem "adminUser" (fun savedUser =>
    match savedUser with
    | Some text =>
        if truthy (Str text) then
          try_catch
            (userData ← JSON_parse_ text;
             perform (setUser userData);;
             perform (setShowLogin false);;
             perform (setShowRegister false);;
             id ← eval (get userData "id");
             Fork (fetchReferralData id) (Ret tt))
            (fun _ => perform (removeItem "adminUser"))
        else Ret tt
    | None => Ret tt
    end).

Definition handleLogin (v : View) : task unit :=
  perform (setLoading true);;
  perform (setError (Str ""));;
  finally
    (try_catch
       (response_data ← await
          (mkRequest POST (API_BASE_URL +:+ "/auth/admin/login")
             (Obj [("email", Str (email (formData v)))]) []);
        success ← eval (get response_data "success");
        if truthy success then
          u ← eval (get response_data "user");
          perform (setUser u);;
          text ← JSON_stringify_ u;
          perform (setItem "adminUser" text);;
          perform (setShowLogin false);;
          perform (setShowRegister false);;
          id ← eval (get u "id");
          fetchReferralData id
        else Ret tt)
       (fun err =>
          perform (setError (or_else (server_message err) (Str "Login failed")))))
    (perform (setLoading false)).

Definition handleRegister (v : View) : task unit :=
  perform (setLoading true);;
  perform (setError (Str ""));;
  finally
    (try_catch
       (response_data ← await
          (mkRequest POST (API_BASE_URL +:+ "/auth/admin/register")
             (Obj [("email", Str (email (formData v)));
                   ("fullName", Str (fullName (formData v)))]) []);
        success ← eval (get response_data "success");
        if truthy success then
          u ← eval (get response_data "user");
          perform (setUser u);;
          text ← JSON_stringify_ u;
          perform (setItem "adminUser" text);;
          perform (setShowLogin false);;
          perform (setShowRegister false);;
          id ← eval (get u "id");
          fetchReferralData id
        else Ret tt)
       (fun err =>
          perform (setError (or_else (server_message err) (Str "Registration failed")))))
    (perform (setLoading false)).

Definition handleLogout : task unit :=
  perform (setUser Null);;
  perform (setReferralData Null);;
  perform (setShowLogin true);;
  perform (setShowRegister false);;
  perform (setFormData (mkFormData "" ""));;
  perform (removeItem "adminUser").

(** Which of the two returned trees is rendered, and in which mode. *)
Inductive screen : Type := LoginForm | RegisterForm | Dashboard.

Definition render (v : View) : screen :=
  if showLogin v || showRegister v
  then (if showLogin v then LoginForm else RegisterForm)
  else Dashboard.

(** [<form onSubmit={showLogin ? handleLogin : handleRegister}>] *)
Definition onSubmit (v : View) : task unit :=
  if showLogin v then handleLogin v else handleRegister v.

End Admin.

(** ** The referral-only variant: one form, no toggle *)

Module Referral.

Definition onMount : task unit :=
  GetItem "adminUser" (fun savedUser =>
    match savedUser with
    | Some text =>
        if truthy (Str text) then
          try_catch
            (userData ← JSON_parse_ text;
             perform (setUser userData);;
             id ← eval (get userData "id");
             Fork (fetchReferralData id) (Ret tt))
            (fun _ => perform (removeItem "adminUser"))
        else Ret tt
    | None => Ret tt
    end).

Definition handleSubmit (v : View) : task unit :=
  perform (setLoading true);;
  perform (setError (Str ""));;
  finally
    (try_catch
       (response_data ← await
          (mkRequest POST (API_BASE_URL +:+ "/auth/admin/register")
             (Obj [("email", Str (email (formData v)));
                   ("fullName", Str (fullName (formData v)))]) []);
        success ← eval (get response_data "success");
        if truthy success then
          userData ← eval (get response_data "user");
          perform (setUser userData);;
          text ← JSON_stringify_ userData;
          perform (setItem "adminUser" text);;
          id ← eval (get userData "id");
          fetchReferralData id
        else Ret tt)
       (fun err =>
          perform (setError
                     (or_else (server_message err) (Str "Failed to access dashboard")))))
    (perform (setLoading false)).

Definition handleLogout : task unit :=
  perform (setUser Null);;
  perform (setReferralData Null);;
  perform (setFormData (mkFormData "" ""));;
  perform (removeItem "adminUser").

Inductive screen : Type := AccessForm | Dashboard.

Definition render (v : View) : screen :=
  if negb (truthy (user v)) then AccessForm else Dashboard.

End Referral.

(** ** What is rendered from the flags, in both variants *)

(** [{error && <div>{error}</div>}] *)
Definition error_shown (v : View) : bool := truthy (error v).

(** [disabled={loading}], on the submit button and on the generate button. *)
Definition button_disabled (v : View) : bool := loading v.

(** ** Requests, as the handlers build them *)

Definition summary_request (userId : value) : request :=
  mkRequest GET (API_BASE_URL +:+ "/referral/admin/summary") Undefined
    [("Authorization", "Bearer " +:+ to_string userId)].

Definition code_request (userId : value) : request :=
  mkRequest GET (API_BASE_URL +:+ "/referral/admin/code") Undefined
    [("Authorization", "Bearer " +:+ to_string userId)].

(** The three forms through which credentials are submitted. *)
Inductive submission : Type := Login | Register | Access.

Definition submit (h : submission) : View → task unit :=
  match h with
  | Login => Admin.handleLogin
  | Register => Admin.handleRegister
  | Access => Referral.handleSubmit
  end.

Definition credential_request (h : submission) (v : View) : request :=
  match h with
  | Login =>
      mkRequest POST (API_BASE_URL +:+ "/auth/admin/login")
        (Obj [("email", Str (email (formData v)))]) []
  | Register | Access =>
      mkRequest POST (API_BASE_URL +:+ "/auth/admin/register")
        (Obj [("email", Str (email (formData v)));
              ("fullName", Str (fullName (formData v)))]) []
  end.

(** The hard-coded string of each handler's [catch]. *)
Definition fallback (h : submission) : value :=
  match h with
  | Login => Str "Login failed"
  | Register => Str "Registration failed"
  | Access => Str "Failed to access dashboard"
  end.

(** A handler that returns before any [await]. *)
Fixpoint synchronous {A : Type} (t : task A) : Prop :=
  match t with
  | Ret _ | Throw _ => True
  | Do _ k => synchronous k
  | GetItem _ k => ∀ x, synchronous (k x)
  | Parse _ k => ∀ x, synchronous (k x)
  | Stringify _ k => ∀ x, synchronous (k x)
  | Await _ _ | Fork _ _ => False
  end.

(** A body that calls no [async] function without awaiting it. *)
Fixpoint sequential {A : Type} (t : task A) : Prop :=
  match t with
  | Ret _ | Throw _ => True
  | Do _ k => sequential k
  | GetItem _ k => ∀ x, sequential (k x)
  | Parse _ k => ∀ x, sequential (k x)
  | Stringify _ k => ∀ x, sequential (k x)
  | Await _ k => ∀ o, sequential (k o)
  | Fork _ _ => False
  end.

(** The requests a run added to the log. *)
Definition issued (before after : World) : list request :=
  drop (length (sent before)) (sent after).

(** ** A scripted platform for the examples *)

Definition quote (s : string) : string :=
  String "034"%char (s +:+ String "034"%char "").

(** JSON text of a value whose strings need no escaping. *)
Fixpoint print (v : value) : string :=
  match v with
  | Undefined => "undefined"
  | Null => "null"
  | Bool true => "true"
  | Bool false => "false"
  | Num n => pretty n
  | Str s => quote s
  | Arr items =>
      "[" +:+ String.concat ","
                (map (fun x => match x with
                               | Undefined => "null"
                               | _ => print x
                               end) items) +:+ "]"
  | Obj fields =>
      "{" +:+ (fix members (fs : list (string * value)) (sep : string) : string :=
                 match fs with
                 | [] => ""
                 | (_, Undefined) :: rest => members rest sep
                 | (k, x) :: rest =>
                     sep +:+ quote k +:+ ":" +:+ print x +:+ members rest ","
                 end) fields "" +:+ "}"
  end.

(** The server answers the n-th request with the n-th scripted outcome (no
    answer at all once the script is over); [JSON.parse] recognises the text
    of the listed documents and throws on anything else. *)
Definition scripted (documents : list value) (answers : list outcome) : Platform :=
  mkPlatform
    (fun n _ => nth n answers (Rejected None))
    (fun text => find (fun v => String.eqb (print v) text) documents)
    print.

Definition fresh (storage : gmap string string) : World :=
  mkWorld initial_view storage [] [].

(** The two endpoints that answer on behalf of a session. *)
Definition referral_endpoint (r : request) : bool :=
  String.eqb (url r) (API_BASE_URL +:+ "/referral/admin/summary")
  || String.eqb (url r) (API_BASE_URL +:+ "/referral/admin/code").

(** The request's only header is [Authorization: Bearer <userId>]. *)
Definition carries_bearer (userId : value) (r : request) : Prop :=
  headers r = [("Authorization", "Bearer " +:+ to_string userId)].

(** ** The component between events *)

(** A handler parked at an [await]: the request it waits for and the rest of
    its body. *)
Record suspended : Type := mkSuspended {
  waits_for : request;
  resume : outcome → task unit
}.

(** Runs a handler until it returns or reaches an [await].  A handler that
    throws rejects a promise nobody looks at. *)
Fixpoint advance (p : Platform) (t : task unit) (w : World) : World * list suspended :=
  match t with
  | Ret _ | Throw _ => (w, [])
  | Do a k => advance p k (apply a w)
  | GetItem key k => advance p (k (localStorage w !! key)) w
  | Parse text k => advance p (k (JSON_parse p text)) w
  | Stringify v k => advance p (k (JSON_stringify p v)) w
  | Await r k => (record_request r w, [mkSuspended r k])
  | Fork child k =>
      let '(w1, s1) := advance p child w in
      let '(w2, s2) := advance p k w1 in
      (w2, s1 ++ s2)
  end.

(** What started a handler. *)
Inductive origin : Type := Mounted | Submitted | Generated | Other.

(** The handlers that bracket their body with [setLoading(true)] and
    [setLoading(false)]. *)
Definition holds_flag (o : origin) : bool :=
  match o with
  | Submitted | Generated => true
  | Mounted | Other => false
  end.

Record Browser : Type := mkBrowser {
  page : World;
  in_flight : list (origin * suspended)
}.

Inductive variant : Type := AdminPanel | ReferralPanel.

Definition form_on_screen (c : variant) (v : View) : bool :=
  match c with
  | AdminPanel =>
      match Admin.render v with
      | Admin.LoginForm | Admin.RegisterForm => true
      | Admin.Dashboard => false
      end
  | ReferralPanel =>
      match Referral.render v with
      | Referral.AccessForm => true
      | Referral.Dashboard => false
      end
  end.

Definition onMount_of (c : variant) : task unit :=
  match c with AdminPanel => Admin.onMount | ReferralPanel => Referral.onMount end.

Definition onSubmit_of (c : variant) (v : View) : task unit :=
  match c with AdminPanel => Admin.onSubmit v | ReferralPanel => Referral.handleSubmit v end.

Definition handleLogout_of (c : variant) : task unit :=
  match c with AdminPanel => Admin.handleLogout | ReferralPanel => Referral.handleLogout end.

(** What can happen to the rendered component: the user's clicks and
    keystrokes, and the settling of a request that is in flight.  Each event
    finds the tree rendered from the current state.  The copy buttons write
    to the clipboard only and are left out. *)
Inductive event : Type :=
| SubmitForm
| ClickGenerate
| ClickLogout
| EditEmail (s : string)
| EditFullName (s : string)
| ClickRegisterHere
| ClickLoginHere
| Settle (n : nat) (o : outcome).

Definition launch (p : Platform) (o : origin) (t : task unit) (b : Browser) : Browser :=
  let '(w, parked) := advance p t (page b) in
  mkBrowser w (in_flight b ++ map (pair o) parked).

(** One event, when the rendered tree offers it: both buttons carry
    [disabled={loading}], the generate and logout buttons are on the
    dashboard, the fields and the two links are on the form. *)
Definition step (c : variant) (p : Platform) (e : event) (b : Browser) : option Browser :=
  let v := view (page b) in
  match e with
  | SubmitForm =>
      if form_on_screen c v && negb (button_disabled v)
      then Some (launch p Submitted (onSubmit_of c v) b) else None
  | ClickGenerate =>
      if negb (form_on_screen c v) && negb (button_disabled v)
      then Some (launch p Generated (generateReferralLink v) b) else None
  | ClickLogout =>
      if negb (form_on_screen c v)
      then Some (launch p Other (handleLogout_of c) b) else None
  | EditEmail s =>
      if form_on_screen c v
      then Some (launch p Other
                   (perform (setFormData (mkFormData s (fullName (formData v))))) b)
      else None
  | EditFullName s =>
      if form_on_screen c v
         && match c with AdminPanel => showRegister v | ReferralPanel => true end
      then Some (launch p Other
                   (perform (setFormData (mkFormData (email (formData v)) s))) b)
      else None
  | ClickRegisterHere =>
      match c with
      | AdminPanel =>
          if form_on_screen c v && showLogin v
          then Some (launch p Other
                       (perform (setShowRegister true);;
                        perform (setShowLogin false);;
                        perform (setError (Str ""))) b)
          else None
      | ReferralPanel => None
      end
  | ClickLoginHere =>
      match c with
      | AdminPanel =>
          if form_on_screen c v && negb (showLogin v)
          then Some (launch p Other
                       (perform (setShowLogin true);;
                        perform (setShowRegister false);;
                        perform (setError (Str ""))) b)
          else None
      | ReferralPanel => None
      end
  | Settle n o =>
      match in_flight b !! n with
      | Some (from, s) =>
          Some (launch p from (resume s o)
                  (mkBrowser (page b) (delete n (in_flight b))))
      | None => None
      end
  end.

(** The first render and its effect. *)
Definition boot (c : variant) (p : Platform) (storage : gmap string string) : Browser :=
  launch p Mounted (onMount_of c) (mkBrowser (fresh storage) []).

Inductive reachable (c : variant) (p : Platform) : Browser → Prop :=
| reach_boot storage : reachable c p (boot c p storage)
| reach_step b e b' :
    reachable c p b → step c p e b = Some b' → reachable c p b'.

(** The handlers in flight that hold the loading flag. *)
Definition holders (b : Browser) : list (origin * suspended) :=
  filter (fun x => holds_flag x.1 = true) (in_flight b).

(** The endpoints of credential submission and code generation. *)
Definition guarded_endpoint (r : request) : bool :=
  String.eqb (url r) (API_BASE_URL +:+ "/auth/admin/login")
  || String.eqb (url r) (API_BASE_URL +:+ "/auth/admin/register")
  || String.eqb (url r) (API_BASE_URL +:+ "/referral/admin/code").

(** A body that never writes the loading flag, never forks, and only awaits
    requests that [ok] admits. *)
Fixpoint calm {A : Type} (ok : request → bool) (t : task A) : Prop :=
  match t with
  | Ret _ | Throw _ => True
  | Do (setLoading _) _ => False
  | Do _ k => calm ok k
  | GetItem _ k => ∀ x, calm ok (k x)
  | Parse _ k => ∀ x, calm ok (k x)
  | Stringify _ k => ∀ x, calm ok (k x)
  | Await r k => ok r = true ∧ ∀ o, calm ok (k o)
  | Fork _ _ => False
  end.

(** A body whose every path ends with [setLoading(false)] and does not
    write the flag before that. *)
Fixpoint releasing (t : task unit) : Prop :=
  match t with
  | Ret _ | Throw _ => False
  | Do (setLoading b) k =>
      b = false ∧ match k with Ret _ | Throw _ => True | _ => False end
  | Do _ k => releasing k
  | GetItem _ k => ∀ x, releasing (k x)
  | Parse _ k => ∀ x, releasing (k x)
  | Stringify _ k => ∀ x, releasing (k x)
  | Await _ k => ∀ o, releasing (k o)
  | Fork _ _ => False
  end.

Definition anything (r : request) : bool := true.
Definition unguarded (r : request) : bool := negb (guarded_endpoint r).

(** What holds of each parked handler: one that holds the flag will release
    it; any other never touches it and waits for no guarded endpoint. *)
Definition well_behaved (x : origin * suspended) : Prop :=
  if holds_flag x.1
  then ∀ o, releasing (resume x.2 o)
  else guarded_endpoint (waits_for x.2) = false ∧ ∀ o, calm unguarded (resume x.2 o).

(** At most one handler holds the flag, and the flag is up exactly while one
    does. *)
Definition consistent (b : Browser) : Prop :=
  Forall well_behaved (in_flight b)
  ∧ match holders b with
    | [] => loading (view (page b)) = false
    | [_] => loading (view (page b)) = true
    | _ :: _ :: _ => False
    end.

(** ** The two requests of a submission or a generation *)

Definition code_endpoint (r : request) : bool :=
  String.eqb (url r) (API_BASE_URL +:+ "/referral/admin/code").

(** Whether a handler that waited for its credential or code request [r]
    goes on to [await fetchReferralData(...)] when [r] settles with [o]: the
    guard [if (response.data.success)] and, in the credential handlers, the
    read of [user.id], which throws on a user that is [null] or
    [undefined]. *)
Definition reaches_fetch (r : request) (o : outcome) : bool :=
  match o with
  | Resolved d =>
      truthy (get_opt d "success")
      && (code_endpoint r || negb (nullish (get_opt d "user")))
  | Rejected _ => false
  end.

(** A parked handler that returns, with the flag lowered, as soon as its
    request settles. *)
Definition finishing (p : Platform) (s : suspended) : Prop :=
  ∀ o w, (advance p (resume s o) w).2 = []
         ∧ loading (view (advance p (resume s o) w).1) = false.

(** A parked handler of a submission or a generation.  At its own request it
    either goes on to the summary fetch, leaving the flag alone, or returns
    with the flag lowered; at the summary fetch it returns with the flag
    lowered. *)
Definition staged (p : Platform) (s : suspended) : Prop :=
  if guarded_endpoint (waits_for s)
  then ∀ o w,
         if reaches_fetch (waits_for s) o
         then loading (view (advance p (resume s o) w).1) = loading (view w)
              ∧ ∃ s', (advance p (resume s o) w).2 = [s']
                      ∧ url (waits_for s') = API_BASE_URL +:+ "/referral/admin/summary"
                      ∧ finishing p s'
         else (advance p (resume s o) w).2 = []
              ∧ loading (view (advance p (resume s o) w).1) = false
  else finishing p s.

(** ** Classes of actions a handler may leave alone *)

(** A body, with every call it forks, that performs no action of the class
    [bad]. *)
Fixpoint spares {A : Type} (bad : action → bool) (t : task A) : Prop :=
  match t with
  | Ret _ | Throw _ => True
  | Do a k => bad a = false ∧ spares bad k
  | GetItem _ k => ∀ x, spares bad (k x)
  | Parse _ k => ∀ x, spares bad (k x)
  | Stringify _ k => ∀ x, spares bad (k x)
  | Await _ k => ∀ o, spares bad (k o)
  | Fork child k => spares bad child ∧ spares bad k
  end.

(** Writes to local storage, to any key. *)
Definition writes_storage (a : action) : bool :=
  match a with
  | setItem _ _ | removeItem _ => true
  | _ => false
  end.

(** Writes to a local-storage key other than ["adminUser"]. *)
Definition writes_other_key (a : action) : bool :=
  match a with
  | setItem key _ | removeItem key => negb (String.eqb key "adminUser")
  | _ => false
  end.

(** [setFormData], with any value. *)
Definition writes_formData (a : action) : bool :=
  match a with
  | setFormData _ => true
  | _ => false
  end.

(** [setShowLogin(true)] and [setShowRegister(true)]. *)
Definition opens_form (a : action) : bool :=
  match a with
  | setShowLogin true | setShowRegister true => true
  | _ => false
  end.

(** Everything that says who is signed in and which screen is up: the
    user slot, the two form flags, the form fields and local storage. *)
Definition writes_session (a : action) : bool :=
  match a with
  | setUser _ | setShowLogin _ | setShowRegister _ | setFormData _
  | setItem _ _ | removeItem _ => true
  | _ => false
  end.

(** ** What the dashboard prints, and the copy buttons *)

(** [referralData?.totalReferredCount || 0], and the same for
    [totalEarnings] and [pendingEarnings]. *)
Definition stat_shown (v : View) (key : string) : value :=
  or_else (get_opt (referralData v) key) (Num 0).

(** [referralData?.referralCode || 'Loading...'], the child of the [code]
    element. *)
Definition code_shown (v : View) : value :=
  or_else (get_opt (referralData v) "referralCode") (Str "Loading...").

(** [referralData?.referralCode || ''], the argument of the Copy button
    beside it. *)
Definition code_copied (v : View) : value :=
  or_else (get_opt (referralData v) "referralCode") (Str "").

(** The text React puts on screen for an expression used as a child:
    strings and numbers as they are, nothing for [null], [undefined] and
    booleans, the children of an array one after the other; a plain object
    is refused ([None]: the render throws). *)
Fixpoint child_text (v : value) : option string :=
  match v with
  | Undefined | Null | Bool _ => Some ""
  | Num n => Some (pretty n)
  | Str s => Some s
  | Arr items =>
      foldr (fun x rest =>
               match child_text x, rest with
               | Some a, Some b => Some (a +:+ b)
               | _, _ => None
               end) (Some "") items
  | Obj _ => None
  end.

(** The second row of the referral-only dashboard in [page.tsx]: the text
    [https://grow100x.ai/analyst?reffer=] followed by the child
    [{referralData?.referralCode || 'Loading...'}]. *)
Definition analyst_link_shown (v : View) : option string :=
  match child_text (code_shown v) with
  | Some code => Some ("https://grow100x.ai/analyst?reffer=" +:+ code)
  | None => None
  end.

(** The template literal its Copy button passes on. *)
Definition analyst_link_copied (v : View) : value :=
  Str ("https://grow100x.ai/analyst?reffer=" +:+ to_string (code_copied v)).

(** The clipboard and the dialogs shown so far; they are no part of the
    component's state. *)
Record Desk : Type := mkDesk {
  clipboard : option string;
  alerts : list string
}.

(** [copyToClipboard].  [api] is [None] where [navigator.clipboard] is
    undefined (the call then throws before the dialog) and [Some granted]
    otherwise, [granted] telling whether the write, which is not awaited,
    goes through. *)
Definition copyToClipboard (api : option bool) (text : value) (d : Desk) : exn + Desk :=
  match api with
  | None => inl TypeError
  | Some granted =>
      inr (mkDesk (if granted then Some (to_string text) else clipboard d)
             (alerts d ++ ["Copied to clipboard!"]))
  end.

(** The state a mount effect leaves when it takes [u] for the user, before
    the fetch it starts has settled. *)
Definition restored (c : variant) (u : value) (w : World) : World :=
  match c with
  | AdminPanel =>
      apply (setShowRegister false) (apply (setShowLogin false) (apply (setUser u) w))
  | ReferralPanel => apply (setUser u) w
  end.

(** The state a credential handler leaves once it has taken [u] for the
    user and stored [text], before the fetch it then awaits has settled. *)
Definition signed_in (h : submission) (u : value) (text : string) (w : World) : World :=
  match h with
  | Login | Register =>
      apply (setShowRegister false)
        (apply (setShowLogin false)
           (apply (setItem "adminUser" text) (apply (setUser u) w)))
  | Access => apply (setItem "adminUser" text) (apply (setUser u) w)
  end.

(** * Properties *)

(** ** How [run] goes through the combinators *)

Lemma run_bind {A B : Type} p (t : task A) (f : A → task B) w :
  run p (bind t f) w =
  match run p t w with
  | (inr a, w1) => run p (f a) w1
  | (inl e, w1) => (inl e, w1)
  end.
Proof.
  revert w. induction t; intros w; cbn; auto.
Qed.

Lemma run_seq {A B : Type} p (t : task A) (f : A → task B) w :
  run p (t ≫= f) w =
  match run p t w with
  | (inr a, w1) => run p (f a) w1
  | (inl e, w1) => (inl e, w1)
  end.
Proof. apply run_bind. Qed.

Lemma run_try_catch {A : Type} p (t : task A) (h : exn → task A) w :
  run p (try_catch t h) w =
  match run p t w with
  | (inl e, w1) => run p (h e) w1
  | (inr a, w1) => (inr a, w1)
  end.
Proof.
  revert w. induction t; intros w; cbn; auto.
Qed.

Lemma run_finally {A : Type} p (t : task A) (c : task unit) w :
  run p (finally t c) w =
  match run p t w with
  | (x, w1) =>
      match run p c w1 with
      | (inr _, w2) => (x, w2)
      | (inl e, w2) => (inl e, w2)
      end
  end.
Proof.
  revert w. induction t; intros w; cbn; auto.
  - unfold mbind, task_bind. rewrite run_bind.
    destruct (run p c w) as [[e|[]] w2]; auto.
  - unfold mbind, task_bind. rewrite run_bind.
    destruct (run p c w) as [[e'|[]] w2]; auto.
Qed.

Example print_sample :
  print (Obj [("id", Str "u1"); ("isVerified", Bool true); ("n", Num (-3));
              ("x", Undefined); ("l", Arr [Null; Str "a"])])
  = "{" +:+ quote "id" +:+ ":" +:+ quote "u1" +:+ ","
        +:+ quote "isVerified" +:+ ":true,"
        +:+ quote "n" +:+ ":-3,"
        +:+ quote "l" +:+ ":[null," +:+ quote "a" +:+ "]}".
Proof. reflexivity. Qed.

(** ** The referral fetch *)

(** [fetchReferralData] never throws, issues exactly its one request, and
    writes no slot other than [referralData]. *)
Lemma fetchReferralData_frame p w userId :
  let out := run p (fetchReferralData userId) w in
  out.1 = inr tt
  ∧ sent out.2 = sent w ++ [summary_request userId]
  ∧ localStorage out.2 = localStorage w
  ∧ user (view out.2) = user (view w)
  ∧ loading (view out.2) = loading (view w)
  ∧ error (view out.2) = error (view w)
  ∧ showLogin (view out.2) = showLogin (view w)
  ∧ showRegister (view out.2) = showRegister (view w)
  ∧ formData (view out.2) = formData (view w).
Proof.
  unfold fetchReferralData, summary_request. cbn.
  destruct (network p (length (sent w)) _) as [d|r]; cbn; [|done].
  destruct d; cbn; try done.
  destruct (truthy (field "success" fields)); cbn; done.
Qed.

Lemma fetchReferralData_rejected p w userId r :
  network p (length (sent w)) (summary_request userId) = Rejected r →
  run p (fetchReferralData userId) w =
  (inr tt, apply (console_error "Failed to fetch referral data:" (AxiosError r))
             (record_request (summary_request userId) w)).
Proof.
  intros H. unfold fetchReferralData. cbn. unfold summary_request in H.
  by rewrite H.
Qed.

Lemma fetchReferralData_resolved p w userId d :
  network p (length (sent w)) (summary_request userId) = Resolved d →
  run p (fetchReferralData userId) w =
  (inr tt,
   match get d "success" with
   | inl e => apply (console_error "Failed to fetch referral data:" e)
   | inr success =>
       if truthy success then apply (setReferralData (get_opt d "data")) else id
   end (record_request (summary_request userId) w)).
Proof.
  intros H. unfold fetchReferralData. cbn. unfold summary_request in H.
  rewrite H. cbn.
  destruct d; cbn; try done.
  destruct (truthy (field "success" fields)); cbn; done.
Qed.

(** ** Reading properties *)

Lemma get_defined v key : nullish v = false → get v key = inr (get_opt v key).
Proof. by destruct v. Qed.

Lemma get_nullish v key : nullish v = true → get v key = inl TypeError.
Proof. by destruct v. Qed.

Lemma truthy_get_opt v key : truthy (get_opt v key) = true → nullish v = false.
Proof. by destruct v. Qed.

Lemma truthy_not_nullish v : truthy v = true → nullish v = false.
Proof. by destruct v. Qed.

Lemma issued_app (w w' : World) l : sent w' = sent w ++ l → issued w w' = l.
Proof. intros H. unfold issued. rewrite H. apply drop_app_length. Qed.

Arguments fetchReferralData : simpl never.
Arguments get : simpl never.

(** Splits off the awaited referral fetch that ends a handler's [try] block
    and brings in what it leaves untouched. *)
Ltac split_fetch :=
  rewrite run_finally, run_try_catch;
  match goal with
  | |- context [run ?p (fetchReferralData ?i) ?W] =>
      let F := fresh "F" in
      pose proof (fetchReferralData_frame p W i) as F;
      cbn zeta in F;
      destruct (run p (fetchReferralData i) W) as [[?|[]] ?];
      cbn in F; destruct F as (? & ? & ? & ? & ? & ? & ? & ? & ?);
      [discriminate|]
  end.

(** ** Credential submission *)

(** What a response with a truthy [success] and a user leaves behind. *)
Lemma submit_successful h p v w d :
  network p (length (sent w)) (credential_request h v) = Resolved d →
  truthy (get_opt d "success") = true →
  nullish (get_opt d "user") = false →
  let out := run p (submit h v) w in
  out.1 = inr tt
  ∧ user (view out.2) = get_opt d "user"
  ∧ localStorage out.2
    = <["adminUser" := JSON_stringify p (get_opt d "user")]> (localStorage w)
  ∧ sent out.2
    = sent w ++ [credential_request h v;
                 summary_request (get_opt (get_opt d "user") "id")].
Proof.
  intros Hnet Hs Hn.
  pose proof (truthy_get_opt _ _ Hs) as Hd.
  destruct h; cbn in *; rewrite Hnet; cbn;
    rewrite (get_defined d "success" Hd); cbn; rewrite Hs; cbn;
    rewrite (get_defined d "user" Hd); cbn;
    rewrite (get_defined _ "id" Hn); cbn;
    split_fetch; cbn in *;
    repeat split; try done;
    match goal with H : sent _ = _ |- _ => rewrite H end;
    by rewrite <- app_assoc.
Qed.




(** What a rejected credential request leaves behind, for each of the three
    handlers. *)
Lemma run_submit_rejected h p v w r :
  network p (length (sent w)) (credential_request h v) = Rejected r →
  run p (submit h v) w =
  (inr tt,
   apply (setLoading false)
     (apply (setError (or_else (server_message (AxiosError r)) (fallback h)))
        (record_request (credential_request h v)
           (apply (setError (Str "")) (apply (setLoading true) w))))).
Proof.
  intros Hnet. destruct h; cbn in *; by rewrite Hnet.
Qed.

(** What a response without a truthy [success] leaves behind. *)
Lemma run_submit_unsuccessful h p v w d :
  network p (length (sent w)) (credential_request h v) = Resolved d →
  nullish d = false →
  truthy (get_opt d "success") = false →
  run p (submit h v) w =
  (inr tt,
   apply (setLoading false)
     (record_request (credential_request h v)
        (apply (setError (Str "")) (apply (setLoading true) w)))).
Proof.
  intros Hnet Hd Hs.
  destruct h; cbn in *; rewrite Hnet; cbn;
    rewrite (get_defined d "success" Hd); cbn; by rewrite Hs.
Qed.

(** C2 (as amended): when the credential request is rejected, the user slot,
    the referral data and local storage are as before, the only request
    issued is the credential request itself, and the error slot holds the
    server's message when that message is truthy and the handler's own
    fallback string otherwise. *)
Theorem rejected_submission_keeps_session h p v w r :
  network p (length (sent w)) (credential_request h v) = Rejected r →
  let out := run p (submit h v) w in
  let message := server_message (AxiosError r) in
  out.1 = inr tt
  ∧ user (view out.2) = user (view w)
  ∧ referralData (view out.2) = referralData (view w)
  ∧ localStorage out.2 = localStorage w
  ∧ issued w out.2 = [credential_request h v]
  ∧ error (view out.2) = (if truthy message then message else fallback h).
Proof.
  intros Hnet. cbn zeta. rewrite (run_submit_rejected _ _ _ _ _ Hnet).
  repeat split. by apply issued_app.
Qed.

Lemma rejected_submission_witness :
  let p := scripted [] [Rejected (Some (Obj [("message", Str "Email not allowed")]))] in
  let v := mkView Null Null false (Str "") true false (mkFormData "eve@example.org" "") in
  let out := run p (submit Login v) (mkWorld v {["other" := "kept"]} [] []) in
  user (view out.2) = Null
  ∧ localStorage out.2 = {["other" := "kept"]}
  ∧ issued (mkWorld v {["other" := "kept"]} [] []) out.2 = [credential_request Login v]
  ∧ error (view out.2) = Str "Email not allowed".
Proof.
  intros p v out.
  destruct (rejected_submission_keeps_session Login p v
              (mkWorld v {["other" := "kept"]} [] [])
              (Some (Obj [("message", Str "Email not allowed")])))
    as (_ & Hu & _ & Hs & Hi & He); [reflexivity |].
  exact (conj Hu (conj Hs (conj Hi He))).
Defined.

(** C2, the input on which the claim as worded fails: the server rejects a
    login with a body whose [message] is the empty string; the slot then
    holds ["Login failed"], not the message. *)
Lemma empty_server_message_is_not_shown :
  let reply := Obj [("message", Str "")] in
  let p := scripted [] [Rejected (Some reply)] in
  let v := mkView Null Null false (Str "") true false (mkFormData "eve@example.org" "") in
  let out := run p (Admin.handleLogin v) (mkWorld v ∅ [] []) in
  get reply "message" = inr (Str "")
  ∧ error (view out.2) = Str "Login failed"
  ∧ error (view out.2) ≠ Str "".
Proof. cbn. repeat split. discriminate. Qed.

(** C10 (as amended): a credential response without a truthy [success]
    leaves the view as it was except that the error slot is emptied and the
    loading flag is false; nothing is stored, logged or fetched. *)
Theorem unsuccessful_submission_only_resets_error_and_loading h p v w d :
  network p (length (sent w)) (credential_request h v) = Resolved d →
  nullish d = false →
  truthy (get_opt d "success") = false →
  let out := run p (submit h v) w in
  out.1 = inr tt
  ∧ view out.2 = mkView (user (view w)) (referralData (view w)) false (Str "")
                   (showLogin (view w)) (showRegister (view w)) (formData (view w))
  ∧ error_shown (view out.2) = false
  ∧ localStorage out.2 = localStorage w
  ∧ issued w out.2 = [credential_request h v]
  ∧ console out.2 = console w.
Proof.
  intros Hnet Hd Hs. cbn zeta. rewrite (run_submit_unsuccessful _ _ _ _ _ Hnet Hd Hs).
  repeat split. by apply issued_app.
Qed.

Lemma unsuccessful_submission_witness :
  let p := scripted [] [Resolved (Obj [("success", Bool false)])] in
  let v := mkView Null Null false (Str "") false true (mkFormData "bob@example.org" "Bob") in
  let out := run p (submit Register v) (mkWorld v ∅ [] []) in
  view out.2 = v ∧ localStorage out.2 = ∅
  ∧ issued (mkWorld v ∅ [] []) out.2 = [credential_request Register v].
Proof.
  intros p v out.
  destruct (unsuccessful_submission_only_resets_error_and_loading Register p v
              (mkWorld v ∅ [] []) (Obj [("success", Bool false)]))
    as (_ & Hv & _ & Hs & Hi & _); [reflexivity | reflexivity | reflexivity |].
  exact (conj Hv (conj Hs Hi)).
Defined.

(** C10, the input on which the claim as worded fails: the form shows the
    error of an earlier attempt; the next login is answered with
    [success = false]; the shown error is gone afterwards, so more than the
    loading flag has changed. *)
Lemma unsuccessful_login_clears_shown_error :
  let before := mkView Null Null false (Str "Login failed") true false
                  (mkFormData "eve@example.org" "") in
  let p := scripted [] [Resolved (Obj [("success", Bool false)])] in
  let out := run p (Admin.handleLogin before) (mkWorld before ∅ [] []) in
  error_shown before = true
  ∧ error (view out.2) = Str ""
  ∧ error_shown (view out.2) = false
  ∧ view out.2 ≠ mkView (user before) (referralData before) false (error before)
                   (showLogin before) (showRegister before) (formData before).
Proof. cbn. repeat split. discriminate. Qed.

(** ** Logout *)

(** C4: from every state, both [handleLogout] functions return without
    awaiting anything and leave the user and the referral data [null], the
    form fields empty, the form on screen and no ["adminUser"] entry in local
    storage; the error slot and the loading flag are not session state and
    stay as they were. *)
Theorem logout_clears_session p w :
  let a := run p Admin.handleLogout w in
  let r := run p Referral.handleLogout w in
  (synchronous Admin.handleLogout ∧ synchronous Referral.handleLogout)
  ∧ (a.1 = inr tt
     ∧ user (view a.2) = Null
     ∧ referralData (view a.2) = Null
     ∧ formData (view a.2) = mkFormData "" ""
     ∧ Admin.render (view a.2) = Admin.LoginForm
     ∧ localStorage a.2 = delete "adminUser" (localStorage w)
     ∧ localStorage a.2 !! "adminUser" = None
     ∧ sent a.2 = sent w
     ∧ error (view a.2) = error (view w)
     ∧ loading (view a.2) = loading (view w))
  ∧ (r.1 = inr tt
     ∧ user (view r.2) = Null
     ∧ referralData (view r.2) = Null
     ∧ formData (view r.2) = mkFormData "" ""
     ∧ Referral.render (view r.2) = Referral.AccessForm
     ∧ localStorage r.2 = delete "adminUser" (localStorage w)
     ∧ localStorage r.2 !! "adminUser" = None
     ∧ sent r.2 = sent w
     ∧ error (view r.2) = error (view w)
     ∧ loading (view r.2) = loading (view w)).
Proof.
  cbn. repeat split; apply lookup_delete_eq.
Qed.

(** ** The referral fetch and code generation *)

(** How the [referralData] slot depends on the answer to the fetch. *)
Lemma fetchReferralData_outcomes p w userId :
  let out := run p (fetchReferralData userId) w in
  let answer := network p (length (sent w)) (summary_request userId) in
  (∀ r, answer = Rejected r →
     view out.2 = view w
     ∧ console out.2 = console w ++ [("Failed to fetch referral data:", AxiosError r)])
  ∧ (∀ d, answer = Resolved d → truthy (get_opt d "success") = false →
       view out.2 = view w)
  ∧ (∀ d, answer = Resolved d → truthy (get_opt d "success") = true →
       referralData (view out.2) = get_opt d "data").
Proof.
  cbn zeta. repeat split.
  - rewrite (fetchReferralData_rejected _ _ _ _ H). cbn. by destruct (view w).
  - by rewrite (fetchReferralData_rejected _ _ _ _ H).
  - intros d Hd Hs. rewrite (fetchReferralData_resolved _ _ _ _ Hd).
    destruct (nullish d) eqn:Hn.
    + rewrite (get_nullish _ _ Hn). cbn. by destruct (view w).
    + rewrite (get_defined _ _ Hn), Hs. cbn. by destruct (view w).
  - intros d Hd Hs. rewrite (fetchReferralData_resolved _ _ _ _ Hd).
    rewrite (get_defined _ _ (truthy_get_opt _ _ Hs)). by rewrite Hs.
Qed.

(** C9 (as amended): [fetchReferralData] never throws and writes no slot
    other than [referralData]; when its request is rejected the whole view is
    as before and the failure goes to the console only; when the response
    lacks a truthy [success] the view is as before; [referralData] is
    replaced, by the response's [data], exactly when the response has a
    truthy [success], whether that is [true] or any other truthy value. *)
Theorem fetch_failure_is_silent p w userId :
  let out := run p (fetchReferralData userId) w in
  let answer := network p (length (sent w)) (summary_request userId) in
  out.1 = inr tt
  ∧ user (view out.2) = user (view w)
  ∧ error (view out.2) = error (view w)
  ∧ loading (view out.2) = loading (view w)
  ∧ localStorage out.2 = localStorage w
  ∧ (∀ r, answer = Rejected r →
       view out.2 = view w
       ∧ console out.2 = console w ++ [("Failed to fetch referral data:", AxiosError r)])
  ∧ (∀ d, answer = Resolved d → truthy (get_opt d "success") = false →
       view out.2 = view w)
  ∧ (∀ d, answer = Resolved d → truthy (get_opt d "success") = true →
       referralData (view out.2) = get_opt d "data").
Proof.
  cbn zeta.
  destruct (fetchReferralData_frame p w userId) as (H1 & _ & H3 & H4 & H5 & H6 & _).
  destruct (fetchReferralData_outcomes p w userId) as (Hrej & Hno & Hyes).
  exact (conj H1 (conj H4 (conj H6 (conj H5 (conj H3 (conj Hrej (conj Hno Hyes))))))).
Qed.

Lemma fetch_failure_witness :
  let before := mkView (Obj [("id", Str "u1")]) (Obj [("referralCode", Str "OLD")])
                  false (Str "") false false (mkFormData "" "") in
  let p := scripted [] [Rejected None] in
  let out := run p (fetchReferralData (Str "u1")) (mkWorld before ∅ [] []) in
  view out.2 = before
  ∧ console out.2 = [("Failed to fetch referral data:", AxiosError None)].
Proof.
  intros before p out.
  destruct (fetch_failure_is_silent p (mkWorld before ∅ [] []) (Str "u1"))
    as (_ & _ & _ & _ & _ & H & _).
  apply (H None). reflexivity.
Defined.

(** C9, the input on which the claim as worded fails: the summary response
    carries [success: "false"], a string, which is not [true] but is truthy;
    the guard [if (response.data.success)] lets it through and the held
    summary is replaced by the response's [data]. *)
Lemma truthy_success_replaces_summary :
  let old := Obj [("referralCode", Str "OLD")] in
  let new := Obj [("referralCode", Str "NEW")] in
  let before := mkView (Obj [("id", Str "u1")]) old false (Str "") false false
                  (mkFormData "" "") in
  let answer := Obj [("success", Str "false"); ("data", new)] in
  let p := scripted [] [Resolved answer] in
  let out := run p (fetchReferralData (Str "u1")) (mkWorld before ∅ [] []) in
  get_opt answer "success" ≠ Bool true
  ∧ referralData (view out.2) = new
  ∧ referralData (view out.2) ≠ old.
Proof. vm_compute. repeat split; discriminate. Qed.

Lemma run_generate_signed_out p v w :
  truthy (user v) = false → run p (generateReferralLink v) w = (inr tt, w).
Proof. intros H. unfold generateReferralLink. by rewrite H. Qed.

Lemma run_generate_rejected p v w r :
  truthy (user v) = true →
  network p (length (sent w)) (code_request (get_opt (user v) "id")) = Rejected r →
  run p (generateReferralLink v) w =
  (inr tt,
   apply (setLoading false)
     (apply (setError (Str "Failed to generate referral link"))
        (record_request (code_request (get_opt (user v) "id"))
           (apply (setLoading true) w)))).
Proof.
  intros Hu Hnet. unfold generateReferralLink. rewrite Hu. cbn.
  rewrite (get_defined _ "id" (truthy_not_nullish _ Hu)). cbn.
  unfold code_request in Hnet. by rewrite Hnet.
Qed.

Lemma run_generate_unsuccessful p v w d :
  truthy (user v) = true →
  network p (length (sent w)) (code_request (get_opt (user v) "id")) = Resolved d →
  truthy (get_opt d "success") = false →
  run p (generateReferralLink v) w =
  (inr tt,
   apply (setLoading false)
     ((if nullish d then apply (setError (Str "Failed to generate referral link"))
       else id)
        (record_request (code_request (get_opt (user v) "id"))
           (apply (setLoading true) w)))).
Proof.
  intros Hu Hnet Hs. unfold generateReferralLink. rewrite Hu. cbn.
  rewrite (get_defined _ "id" (truthy_not_nullish _ Hu)). cbn.
  unfold code_request in Hnet. rewrite Hnet. cbn.
  destruct (nullish d) eqn:Hd.
  - by rewrite (get_nullish _ _ Hd).
  - rewrite (get_defined _ _ Hd). cbn. by rewrite Hs.
Qed.

Lemma run_generate_successful p v w d :
  truthy (user v) = true →
  network p (length (sent w)) (code_request (get_opt (user v) "id")) = Resolved d →
  truthy (get_opt d "success") = true →
  run p (generateReferralLink v) w =
  (inr tt,
   apply (setLoading false)
     (run p (fetchReferralData (get_opt (user v) "id"))
        (record_request (code_request (get_opt (user v) "id"))
           (apply (setLoading true) w))).2).
Proof.
  intros Hu Hnet Hs. unfold generateReferralLink. rewrite Hu. cbn.
  rewrite (get_defined _ "id" (truthy_not_nullish _ Hu)). cbn.
  unfold code_request in Hnet. rewrite Hnet. cbn.
  rewrite (get_defined _ _ (truthy_get_opt _ _ Hs)). cbn. rewrite Hs. cbn.
  rewrite run_finally, run_try_catch. unfold code_request. cbn.
  match goal with
  | |- context [run p (fetchReferralData ?i) ?W] =>
      destruct (fetchReferralData_frame p W i) as [F _];
      destruct (run p (fetchReferralData i) W) as [[?|[]] ?]
  end; [discriminate|done].
Qed.

(** C5 (as amended): with a signed-in user, a code-generation response with
    a truthy [success] is followed by exactly one summary fetch; the
    [referralData] slot then becomes that fetch's [data] when the fetch's
    response has a truthy [success] and stays as it was otherwise.  A
    generation response without a truthy [success], or a rejected
    generation request, is followed by no fetch. *)
Theorem generation_refetches_once p v w :
  truthy (user v) = true →
  let uid := get_opt (user v) "id" in
  let out := run p (generateReferralLink v) w in
  let answer := network p (length (sent w)) (code_request uid) in
  let refetch := network p (S (length (sent w))) (summary_request uid) in
  (∀ d, answer = Resolved d → truthy (get_opt d "success") = true →
     issued w out.2 = [code_request uid; summary_request uid]
     ∧ (∀ d', refetch = Resolved d' → truthy (get_opt d' "success") = true →
          referralData (view out.2) = get_opt d' "data")
     ∧ ((∀ d', refetch = Resolved d' → truthy (get_opt d' "success") = false) →
          referralData (view out.2) = referralData (view w)))
  ∧ ((∀ d, answer = Resolved d → truthy (get_opt d "success") = false) →
       issued w out.2 = [code_request uid]
       ∧ referralData (view out.2) = referralData (view w)).
Proof.
  intros Hu. cbn zeta. split.
  - intros d Hnet Hs. rewrite (run_generate_successful _ _ _ _ Hu Hnet Hs).
    set (w1 := record_request _ (apply (setLoading true) w)).
    assert (length (sent w1) = S (length (sent w))) as Hlen
      by (subst w1; cbn; rewrite length_app; cbn; lia).
    destruct (fetchReferralData_frame p w1 (get_opt (user v) "id"))
      as (_ & Hsent & _).
    destruct (fetchReferralData_outcomes p w1 (get_opt (user v) "id"))
      as (Hrej & Hno & Hyes).
    rewrite Hlen in Hrej, Hno, Hyes.
    repeat split.
    + apply issued_app. cbn. rewrite Hsent. subst w1. cbn. by rewrite <- app_assoc.
    + intros d' Hd' Hs'. cbn. apply (Hyes d' Hd' Hs').
    + intros Hfail. cbn.
      destruct (network p (S (length (sent w))) _) as [d'|r] eqn:Hre.
      * by rewrite (Hno d' eq_refl (Hfail d' eq_refl)).
      * by rewrite (proj1 (Hrej r eq_refl)).
  - intros Hfail.
    destruct (network p (length (sent w)) _) as [d|r] eqn:Hnet.
    + rewrite (run_generate_unsuccessful _ _ _ _ Hu Hnet (Hfail d eq_refl)).
      split; [apply issued_app|]; by destruct (nullish d).
    + rewrite (run_generate_rejected _ _ _ _ Hu Hnet). split; [by apply issued_app|done].
Qed.

Lemma generation_refetch_witness :
  let signed_in := mkView (Obj [("id", Str "u1")]) (Obj [("referralCode", Str "OLD")])
                     false (Str "") false false (mkFormData "" "") in
  let fresh_summary := Obj [("referralCode", Str "NEW")] in
  let p := scripted [] [Resolved (Obj [("success", Bool true)]);
                        Resolved (Obj [("success", Bool true); ("data", fresh_summary)])] in
  let out := run p (generateReferralLink signed_in) (mkWorld signed_in ∅ [] []) in
  issued (mkWorld signed_in ∅ [] []) out.2
  = [code_request (Str "u1"); summary_request (Str "u1")]
  ∧ referralData (view out.2) = fresh_summary.
Proof.
  intros signed_in fresh_summary p out.
  destruct (generation_refetches_once p signed_in (mkWorld signed_in ∅ [] []) eq_refl)
    as [H _].
  destruct (H (Obj [("success", Bool true)]) eq_refl eq_refl) as (Hi & Hyes & _).
  split; [exact Hi|].
  exact (Hyes (Obj [("success", Bool true); ("data", fresh_summary)]) eq_refl eq_refl).
Defined.

(** C5, the input on which the claim as worded fails: generation succeeds,
    the summary fetch that follows is answered with [success = false] and a
    [data] field; the slot keeps the old summary instead of taking the
    response's. *)
Lemma unsuccessful_refetch_keeps_old_summary :
  let old := Obj [("referralCode", Str "OLD")] in
  let signed_in := mkView (Obj [("id", Str "u1")]) old false (Str "") false false
                     (mkFormData "" "") in
  let answer := Obj [("success", Bool false); ("data", Obj [("referralCode", Str "NEW")])] in
  let p := scripted [] [Resolved (Obj [("success", Bool true)]); Resolved answer] in
  let out := run p (generateReferralLink signed_in) (mkWorld signed_in ∅ [] []) in
  issued (mkWorld signed_in ∅ [] []) out.2
  = [code_request (Str "u1"); summary_request (Str "u1")]
  ∧ referralData (view out.2) = old
  ∧ referralData (view out.2) ≠ get_opt answer "data".
Proof. vm_compute. repeat split. discriminate. Qed.

(** ** Error strings *)

(** C7 (as amended): after a rejected credential request the error slot
    holds the server's message when it is truthy and the handler's fallback
    string otherwise; after a rejected code-generation request it holds the
    fixed string ["Failed to generate referral link"] whatever the server
    sent. *)
Theorem surfaced_error_strings p w :
  (∀ h v r,
     network p (length (sent w)) (credential_request h v) = Rejected r →
     error (view (run p (submit h v) w).2)
     = (if truthy (server_message (AxiosError r))
        then server_message (AxiosError r) else fallback h))
  ∧ (∀ v r,
       truthy (user v) = true →
       network p (length (sent w)) (code_request (get_opt (user v) "id")) = Rejected r →
       error (view (run p (generateReferralLink v) w).2)
       = Str "Failed to generate referral link").
Proof.
  split.
  - intros h v r Hnet. by rewrite (run_submit_rejected _ _ _ _ _ Hnet).
  - intros v r Hu Hnet. by rewrite (run_generate_rejected _ _ _ _ Hu Hnet).
Qed.

Lemma surfaced_error_witness :
  let p := scripted [] [Rejected None] in
  let v := mkView Null Null false (Str "") false true (mkFormData "bob@example.org" "Bob") in
  error (view (run p (submit Register v) (mkWorld v ∅ [] [])).2)
  = Str "Registration failed".
Proof.
  intros p v.
  exact (proj1 (surfaced_error_strings p (mkWorld v ∅ [] [])) Register v None eq_refl).
Defined.

(** C7, the input on which the claim as worded fails: the server rejects
    the code-generation request with a message of its own; the slot holds the
    fixed string, not the server's message. *)
Lemma generation_ignores_server_message :
  let reply := Obj [("message", Str "Too many codes today")] in
  let signed_in := mkView (Obj [("id", Str "u1")]) Null false (Str "") false false
                     (mkFormData "" "") in
  let p := scripted [] [Rejected (Some reply)] in
  let out := run p (generateReferralLink signed_in) (mkWorld signed_in ∅ [] []) in
  server_message (AxiosError (Some reply)) = Str "Too many codes today"
  ∧ error (view out.2) = Str "Failed to generate referral link"
  ∧ error (view out.2) ≠ server_message (AxiosError (Some reply)).
Proof. vm_compute. repeat split. discriminate. Qed.

(** ** Session bootstrap *)

Lemma run_onMount_malformed p w text :
  localStorage w !! "adminUser" = Some text →
  truthy (Str text) = true →
  JSON_parse p text = None →
  run p Admin.onMount w = (inr tt, apply (removeItem "adminUser") w)
  ∧ run p Referral.onMount w = (inr tt, apply (removeItem "adminUser") w).
Proof.
  intros Hget Ht Hparse. unfold Admin.onMount, Referral.onMount. cbn.
  rewrite Hget. destruct text; [discriminate|]. cbn. by rewrite Hparse.
Qed.

(** C3 (as amended): on the first render, a stored ["adminUser"] text that
    is not empty and that [JSON.parse] rejects is removed from local storage;
    every slot keeps its initial value, so no user is set, no error is shown
    and the form is on screen; no request is issued and nothing is logged. *)
Theorem malformed_session_is_discarded p storage text :
  storage !! "adminUser" = Some text →
  text ≠ "" →
  JSON_parse p text = None →
  let a := run p Admin.onMount (fresh storage) in
  let r := run p Referral.onMount (fresh storage) in
  (a.1 = inr tt
   ∧ localStorage a.2 = delete "adminUser" storage
   ∧ localStorage a.2 !! "adminUser" = None
   ∧ view a.2 = initial_view
   ∧ user (view a.2) = Null
   ∧ error_shown (view a.2) = false
   ∧ Admin.render (view a.2) = Admin.LoginForm
   ∧ sent a.2 = []
   ∧ console a.2 = [])
  ∧ (r.1 = inr tt
     ∧ localStorage r.2 = delete "adminUser" storage
     ∧ localStorage r.2 !! "adminUser" = None
     ∧ view r.2 = initial_view
     ∧ user (view r.2) = Null
     ∧ error_shown (view r.2) = false
     ∧ Referral.render (view r.2) = Referral.AccessForm
     ∧ sent r.2 = []
     ∧ console r.2 = []).
Proof.
  intros Hget Hne Hparse. cbn zeta.
  assert (truthy (Str text) = true) as Ht by (by destruct text).
  destruct (run_onMount_malformed p (fresh storage) text Hget Ht Hparse) as [-> ->].
  cbn. repeat split; apply lookup_delete_eq.
Qed.

Lemma malformed_session_witness :
  let p := scripted [Obj [("id", Str "u1")]] [] in
  let a := run p Admin.onMount (fresh {["adminUser" := "{id:u1"]}) in
  localStorage a.2 !! "adminUser" = None
  ∧ view a.2 = initial_view
  ∧ sent a.2 = [].
Proof.
  intros p a.
  destruct (malformed_session_is_discarded p {["adminUser" := "{id:u1"]} "{id:u1")
    as [(_ & _ & Hs & Hv & _ & _ & _ & Hn & _) _];
    [reflexivity | discriminate | reflexivity |].
  exact (conj Hs (conj Hv Hn)).
Defined.

(** C3, the input on which the claim as worded fails: the stored text is
    the empty string, which [JSON.parse] rejects; [if (savedUser)] skips it,
    and the entry is still in local storage after the effect. *)
Lemma empty_session_text_is_kept :
  let p := scripted [Obj [("id", Str "u1")]] [] in
  let storage : gmap string string := {["adminUser" := ""]} in
  let a := run p Admin.onMount (fresh storage) in
  let r := run p Referral.onMount (fresh storage) in
  storage !! "adminUser" = Some ""
  ∧ JSON_parse p "" = None
  ∧ localStorage a.2 !! "adminUser" = Some ""
  ∧ localStorage r.2 !! "adminUser" = Some "".
Proof. vm_compute. repeat split. Qed.

(** ** Who the referral requests speak for *)

(** A credential handler issues its own request and, at most, the summary
    fetch for the user the server returned. *)
Lemma submit_issues h p v w :
  issued w (run p (submit h v) w).2 = [credential_request h v]
  ∨ ∃ d, network p (length (sent w)) (credential_request h v) = Resolved d
         ∧ issued w (run p (submit h v) w).2
           = [credential_request h v;
              summary_request (get_opt (get_opt d "user") "id")].
Proof.
  destruct (network p (length (sent w)) (credential_request h v)) as [d|r] eqn:Hnet.
  - destruct (truthy (get_opt d "success")) eqn:Hs.
    + destruct (nullish (get_opt d "user")) eqn:Hn.
      * left. apply issued_app.
        pose proof (truthy_get_opt _ _ Hs) as Hd.
        destruct h; cbn in *; rewrite Hnet; cbn;
          rewrite (get_defined d "success" Hd); cbn; rewrite Hs; cbn;
          rewrite (get_defined d "user" Hd); cbn;
          by rewrite (get_nullish _ "id" Hn).
      * right. exists d. split; [done|]. apply issued_app.
        by destruct (submit_successful h p v w d Hnet Hs Hn) as (_ & _ & _ & ?).
    + left. apply issued_app. destruct (nullish d) eqn:Hd.
      * destruct h; cbn in *; rewrite Hnet; cbn;
          by rewrite (get_nullish d "success" Hd).
      * by rewrite (run_submit_unsuccessful _ _ _ _ _ Hnet Hd Hs).
  - left. apply issued_app. by rewrite (run_submit_rejected _ _ _ _ _ Hnet).
Qed.

(** The mount effect issues nothing, or the summary fetch for the user that
    was parsed out of local storage. *)
Lemma onMount_issues p w :
  let stored u := ∃ text, localStorage w !! "adminUser" = Some text
                          ∧ JSON_parse p text = Some u in
  (issued w (run p Admin.onMount w).2 = []
   ∨ ∃ u, stored u
          ∧ issued w (run p Admin.onMount w).2 = [summary_request (get_opt u "id")])
  ∧ (issued w (run p Referral.onMount w).2 = []
     ∨ ∃ u, stored u
            ∧ issued w (run p Referral.onMount w).2 = [summary_request (get_opt u "id")]).
Proof.
  cbn zeta. unfold Admin.onMount, Referral.onMount. cbn.
  destruct (localStorage w !! "adminUser") as [text|] eqn:Hget;
    [|split; left; apply drop_all].
  destruct text as [|c text]; cbn; [split; left; apply drop_all|].
  destruct (JSON_parse p (String c text)) as [u|] eqn:Hparse; cbn;
    [|split; left; apply drop_all].
  destruct (nullish u) eqn:Hn.
  - rewrite (get_nullish _ "id" Hn). cbn. split; left; apply drop_all.
  - rewrite (get_defined _ "id" Hn). cbn.
    split; right; exists u; (split; [by eexists|]); apply issued_app;
      match goal with
      | |- context [run p (fetchReferralData ?i) ?W] =>
          by destruct (fetchReferralData_frame p W i) as (_ & -> & _)
      end.
Qed.

(** The mount effect over a stored session it can use issues exactly the
    summary fetch for the stored user's [id]. *)
Lemma onMount_issues_stored c p w text u :
  localStorage w !! "adminUser" = Some text →
  text ≠ "" →
  JSON_parse p text = Some u →
  nullish u = false →
  issued w (run p (onMount_of c) w).2 = [summary_request (get_opt u "id")].
Proof.
  intros Hget Hne Hparse Hn. apply issued_app.
  destruct c; unfold onMount_of, Admin.onMount, Referral.onMount; cbn;
    rewrite Hget; (destruct text; [done|]); cbn; rewrite Hparse; cbn;
    rewrite (get_defined _ "id" Hn); cbn;
    match goal with
    | |- context [run p (fetchReferralData ?i) ?W] =>
        by destruct (fetchReferralData_frame p W i) as (_ & -> & _)
    end.
Qed.

(** C6: every summary fetch and every code-generation request is sent with
    exactly one header, [Authorization], whose value is ["Bearer "] followed
    by the text of the user identifier.  [fetchReferralData] sends one such
    request for the identifier it is given, a string identifier as it is.
    With a signed-in user, [generateReferralLink] sends first the
    code-generation request for that user's [id], and after it at most the
    summary fetch for the same [id]; signed out it sends nothing.  A
    successful submission sends the summary fetch for the [id] of the user
    the server returned, and the mount effect for the [id] of the stored
    user; neither sends anything else to the two referral endpoints. *)
Theorem referral_requests_carry_bearer p w :
  let summary := API_BASE_URL +:+ "/referral/admin/summary" in
  let code := API_BASE_URL +:+ "/referral/admin/code" in
  let bearer (userId : value) := [("Authorization", "Bearer " +:+ to_string userId)] in
  (∀ userId, ∃ r,
     issued w (run p (fetchReferralData userId) w).2 = [r]
     ∧ method r = GET ∧ url r = summary ∧ headers r = bearer userId)
  ∧ (∀ s, ∃ r,
       issued w (run p (fetchReferralData (Str s)) w).2 = [r]
       ∧ headers r = [("Authorization", "Bearer " +:+ s)])
  ∧ (∀ v, truthy (user v) = true →
       ∃ r rest,
         issued w (run p (generateReferralLink v) w).2 = r :: rest
         ∧ method r = GET ∧ url r = code
         ∧ headers r = bearer (get_opt (user v) "id")
         ∧ (length rest ≤ 1)%nat
         ∧ Forall (fun r' => method r' = GET ∧ url r' = summary
                             ∧ headers r' = bearer (get_opt (user v) "id")) rest)
  ∧ (∀ v, truthy (user v) = false →
       issued w (run p (generateReferralLink v) w).2 = [])
  ∧ (∀ h v d,
       network p (length (sent w)) (credential_request h v) = Resolved d →
       truthy (get_opt d "success") = true →
       nullish (get_opt d "user") = false →
       ∃ r, issued w (run p (submit h v) w).2 = [credential_request h v; r]
            ∧ method r = GET ∧ url r = summary
            ∧ headers r = bearer (get_opt (get_opt d "user") "id"))
  ∧ (∀ h v,
       Forall (fun r => referral_endpoint r = true →
                        ∃ d, network p (length (sent w)) (credential_request h v)
                             = Resolved d
                             ∧ carries_bearer (get_opt (get_opt d "user") "id") r)
         (issued w (run p (submit h v) w).2))
  ∧ (∀ c text u,
       localStorage w !! "adminUser" = Some text →
       text ≠ "" →
       JSON_parse p text = Some u →
       nullish u = false →
       ∃ r, issued w (run p (onMount_of c) w).2 = [r]
            ∧ method r = GET ∧ url r = summary
            ∧ headers r = bearer (get_opt u "id"))
  ∧ (∀ c,
       Forall (fun r => referral_endpoint r = true
                        ∧ ∃ text u, localStorage w !! "adminUser" = Some text
                                    ∧ JSON_parse p text = Some u
                                    ∧ carries_bearer (get_opt u "id") r)
         (issued w (run p (onMount_of c) w).2)).
Proof.
  cbn zeta.
  assert (∀ userId, ∃ r,
            issued w (run p (fetchReferralData userId) w).2 = [r]
            ∧ method r = GET
            ∧ url r = API_BASE_URL +:+ "/referral/admin/summary"
            ∧ headers r = [("Authorization", "Bearer " +:+ to_string userId)]) as Hfetch.
  { intros userId.
    destruct (fetchReferralData_frame p w userId) as (_ & Hsent & _).
    exists (summary_request userId). by rewrite (issued_app _ _ _ Hsent). }
  split; [exact Hfetch|]. split; [|split; [|split; [|split; [|split; [|split]]]]].
  - intros s. destruct (Hfetch (Str s)) as (r & Hi & _ & _ & Hh). by exists r.
  - intros v Hu.
    destruct (network p (length (sent w)) (code_request (get_opt (user v) "id")))
      as [d|r] eqn:Hnet.
    + destruct (truthy (get_opt d "success")) eqn:Hs.
      * exists (code_request (get_opt (user v) "id")),
          [summary_request (get_opt (user v) "id")].
        split; [|by repeat constructor].
        apply issued_app.
        rewrite (run_generate_successful _ _ _ _ Hu Hnet Hs). cbn.
        match goal with
        | |- context [run p (fetchReferralData ?i) ?W] =>
            destruct (fetchReferralData_frame p W i) as (_ & -> & _)
        end.
        cbn. by rewrite <- app_assoc.
      * exists (code_request (get_opt (user v) "id")), [].
        split; [|by repeat constructor].
        apply issued_app.
        rewrite (run_generate_unsuccessful _ _ _ _ Hu Hnet Hs). by destruct (nullish d).
    + exists (code_request (get_opt (user v) "id")), [].
      split; [|by repeat constructor].
      apply issued_app. by rewrite (run_generate_rejected _ _ _ _ Hu Hnet).
  - intros v Hu. rewrite (run_generate_signed_out _ _ _ Hu). unfold issued.
    apply drop_all.
  - intros h v d Hnet Hs Hn.
    destruct (submit_successful h p v w d Hnet Hs Hn) as (_ & _ & _ & Hsent).
    exists (summary_request (get_opt (get_opt d "user") "id")).
    by rewrite (issued_app _ _ _ Hsent).
  - intros h v. destruct (submit_issues h p v w) as [-> | (d & Hnet & ->)].
    + repeat constructor. by destruct h.
    + repeat constructor; [by destruct h|]. intros _. by exists d.
  - intros c text u Hget Hne Hparse Hn.
    exists (summary_request (get_opt u "id")).
    by rewrite (onMount_issues_stored c p w text u Hget Hne Hparse Hn).
  - intros c. destruct (onMount_issues p w) as [Ha Hr].
    destruct c; unfold onMount_of;
      [destruct Ha as [-> | (u & (text & Hget & Hparse) & ->)]
      |destruct Hr as [-> | (u & (text & Hget & Hparse) & ->)]];
      repeat constructor; by exists text, u.
Qed.

Lemma referral_requests_witness :
  let signed_in := mkView (Obj [("id", Str "u1")]) Null false (Str "") false false
                     (mkFormData "" "") in
  let p := scripted [] [Resolved (Obj [("success", Bool true)])] in
  let w := mkWorld signed_in ∅ [] [] in
  ∃ r rest,
    issued w (run p (generateReferralLink signed_in) w).2 = r :: rest
    ∧ url r = API_BASE_URL +:+ "/referral/admin/code"
    ∧ headers r = [("Authorization", "Bearer u1")]
    ∧ Forall (fun r' => url r' = API_BASE_URL +:+ "/referral/admin/summary"
                        ∧ headers r' = [("Authorization", "Bearer u1")]) rest.
Proof.
  intros signed_in p w.
  destruct (referral_requests_carry_bearer p w) as (_ & _ & H & _).
  destruct (H signed_in eq_refl) as (r & rest & Hi & _ & Hu & Hh & _ & Hrest).
  exists r, rest. split; [exact Hi|]. split; [exact Hu|]. split; [exact Hh|].
  eapply Forall_impl; [exact Hrest|]. intros r' (_ & Hu' & Hh'). exact (conj Hu' Hh').
Defined.

(** A login followed by a reload: the stored text parses back to the user
    and the mount effect fetches the summary on that user's behalf. *)
Example session_survives_reload :
  let u := Obj [("id", Str "u1"); ("fullName", Str "Ada")] in
  let p := scripted [u] [Resolved (Obj [("success", Bool true); ("user", u)])] in
  let v := mkView Null Null false (Str "") true false (mkFormData "ada@example.org" "") in
  let signed_in := run p (Admin.handleLogin v) (mkWorld v ∅ [] []) in
  let reloaded := run p Admin.onMount (fresh (localStorage signed_in.2)) in
  user (view reloaded.2) = u
  ∧ Admin.render (view reloaded.2) = Admin.Dashboard
  ∧ sent reloaded.2 = [summary_request (Str "u1")].
Proof. vm_compute. repeat split. Qed.

(** A stored text that parses, but to [null]: reading [userData.id] throws
    inside the [try], so the entry is removed as well, after the setters
    have already run. *)
Example stored_null_is_removed :
  let p := scripted [Null] [] in
  let a := run p Admin.onMount (fresh {["adminUser" := "null"]}) in
  localStorage a.2 !! "adminUser" = None
  ∧ user (view a.2) = Null
  ∧ sent a.2 = []
  ∧ Admin.render (view a.2) = Admin.Dashboard.
Proof. vm_compute. repeat split. Qed.

(** ** The loading flag *)

Lemma task_unit_ind (P : task unit → Prop) :
  (∀ a, P (Ret a)) →
  (∀ e, P (Throw e)) →
  (∀ a k, P k → P (Do a k)) →
  (∀ key k, (∀ x, P (k x)) → P (GetItem key k)) →
  (∀ text k, (∀ x, P (k x)) → P (Parse text k)) →
  (∀ v k, (∀ x, P (k x)) → P (Stringify v k)) →
  (∀ r k, (∀ o, P (k o)) → P (Await r k)) →
  (∀ child k, P child → P k → P (Fork child k)) →
  ∀ t, P t.
Proof.
  intros HR HT HD HG HP HS HA HF. fix IH 1.
  intros [a|e|a k|key k|text k|v k|r k|child k].
  - apply HR.
  - apply HT.
  - apply HD, IH.
  - apply HG. intros x. apply IH.
  - apply HP. intros x. apply IH.
  - apply HS. intros x. apply IH.
  - apply HA. intros o. apply IH.
  - apply HF; apply IH.
Qed.

Lemma calm_bind {A B : Type} ok (t : task A) (f : A → task B) :
  calm ok t → (∀ a, calm ok (f a)) → calm ok (bind t f).
Proof.
  intros Ht Hf. induction t; cbn in *; auto.
  all: try (destruct a; by auto).
  all: try (destruct Ht as [? Hk]; split; by auto).
Qed.

Lemma calm_try_catch {A : Type} ok (t : task A) (h : exn → task A) :
  calm ok t → (∀ e, calm ok (h e)) → calm ok (try_catch t h).
Proof.
  intros Ht Hh. induction t; cbn in *; auto.
  all: try (destruct a; by auto).
  all: try (destruct Ht as [? Hk]; split; by auto).
Qed.

Lemma calm_mono {A : Type} (ok ok' : request → bool) (t : task A) :
  (∀ r, ok r = true → ok' r = true) → calm ok t → calm ok' t.
Proof.
  intros Hok Ht. induction t; cbn in *; auto.
  all: try (destruct a; by auto).
  all: try (destruct Ht as [? Hk]; split; by auto).
Qed.

Lemma calm_eval {A : Type} ok (x : exn + A) : calm ok (eval x).
Proof. by destruct x. Qed.

Lemma calm_fetchReferralData userId : calm unguarded (fetchReferralData userId).
Proof.
  unfold fetchReferralData. apply calm_try_catch; [|done].
  apply calm_bind; [split; [done|by intros []]|].
  intros d. apply calm_bind; [apply calm_eval|].
  intros success. destruct (truthy success); [|done].
  apply calm_bind; [apply calm_eval|done].
Qed.

Lemma releasing_finally ok (t : task unit) :
  calm ok t → releasing (finally t (perform (setLoading false))).
Proof.
  induction t using task_unit_ind; cbn; intros Ht; auto.
  all: try (destruct a; cbn in *; by auto).
  all: try (destruct Ht as [_ Hk]; by auto).
Qed.

Lemma advance_calm p ok (t : task unit) w :
  calm ok t →
  loading (view (advance p t w).1) = loading (view w)
  ∧ Forall (fun s => ok (waits_for s) = true ∧ ∀ o, calm ok (resume s o))
      (advance p t w).2.
Proof.
  revert w. induction t using task_unit_ind; intros w Ht; cbn in *; auto.
  all: try done.
  all: try (destruct Ht as [Hr Hk]; split; [done|]; by repeat constructor).
  destruct a; cbn in *; try done;
    match goal with
    | |- context [advance p t ?W] => destruct (IHt W Ht) as [H1 H2]
    end; (split; [by rewrite H1|done]).
Qed.

Lemma advance_releasing p (t : task unit) w :
  releasing t →
  ((advance p t w).2 = [] ∧ loading (view (advance p t w).1) = false)
  ∨ ∃ s, (advance p t w).2 = [s]
         ∧ loading (view (advance p t w).1) = loading (view w)
         ∧ ∀ o, releasing (resume s o).
Proof.
  revert w. induction t using task_unit_ind; intros w Ht; cbn in *; auto; try done.
  all: try (right; by eexists).
  destruct a; cbn in *;
    try (match goal with
         | |- context [advance p t ?W] =>
             destruct (IHt W Ht) as [[H1 H2]|(s & H1 & H2 & H3)]
         end; [by left | right; exists s; by rewrite H2]).
  destruct Ht as [-> Hk]. left. by destruct t.
Qed.

(** The three credential handlers and code generation raise the flag and
    then run a body that will lower it. *)
Lemma submit_acquires h v :
  ∃ k, submit h v = Do (setLoading true) k ∧ releasing k.
Proof.
  destruct h; eexists; (split; [reflexivity|]);
    match goal with
    | |- context [finally ?body ?cleanup] => change (releasing (finally body cleanup))
    end;
    apply (releasing_finally anything);
    (apply calm_try_catch; [|done]);
    (apply calm_bind; [split; [done|by intros []]|]);
    intros d; (apply calm_bind; [apply calm_eval|]);
    intros success; (destruct (truthy success); [|done]);
    (apply calm_bind; [apply calm_eval|]);
    intros u; cbn; intros text;
    (apply calm_bind; [apply calm_eval|]);
    intros id; apply (calm_mono unguarded); [done| apply calm_fetchReferralData
                                            |done| apply calm_fetchReferralData
                                            |done| apply calm_fetchReferralData].
Qed.

Lemma generate_acquires v :
  truthy (user v) = true →
  ∃ k, generateReferralLink v = Do (setLoading true) k ∧ releasing k.
Proof.
  intros Hu. unfold generateReferralLink. rewrite Hu. eexists.
  split; [reflexivity|].
  match goal with
  | |- context [finally ?body ?cleanup] => change (releasing (finally body cleanup))
  end.
  apply (releasing_finally anything).
  apply calm_try_catch; [|done].
  apply calm_bind; [apply calm_eval|]. intros id.
  apply calm_bind; [split; [done|by intros []]|]. intros d.
  apply calm_bind; [apply calm_eval|]. intros success.
  destruct (truthy success); [|done].
  apply calm_bind; [apply calm_eval|]. intros id'.
  apply (calm_mono unguarded); [done|apply calm_fetchReferralData].
Qed.

(** *** The two ways of running a handler agree *)

Lemma calm_sequential {A : Type} ok (t : task A) : calm ok t → sequential t.
Proof.
  induction t; cbn; intros Ht; auto.
  all: try (destruct a; by auto).
  all: try (destruct Ht as [_ Hk]; by auto).
Qed.

Lemma releasing_sequential (t : task unit) : releasing t → sequential t.
Proof.
  induction t using task_unit_ind; cbn; intros Ht; auto; try done.
  destruct a; auto. cbn in Ht. destruct Ht as [_ Hk]. by destruct t.
Qed.

(** Up to its first [await] a handler does the same under [advance] and
    under [run]; [run] then goes on with the rest of the body, given the
    network's answer. *)
Lemma run_resumes p (t : task unit) w :
  sequential t →
  match advance p t w with
  | (w1, []) => (run p t w).2 = w1
  | (w1, s :: _) =>
      ∃ w0, w1 = record_request (waits_for s) w0
            ∧ run p t w
              = run p (resume s (network p (length (sent w0)) (waits_for s))) w1
  end.
Proof.
  revert w.
  induction t as [| |a t IH|key k IH|text k IH|v k IH|r k IH|] using task_unit_ind;
    intros w Ht; cbn in *; try done; try (by apply IH).
  by exists w.
Qed.

Lemma handlers_sequential :
  (∀ userId, sequential (fetchReferralData userId))
  ∧ (∀ h v, sequential (submit h v))
  ∧ (∀ v, sequential (generateReferralLink v)).
Proof.
  split; [|split].
  - intros userId. apply (calm_sequential unguarded), calm_fetchReferralData.
  - intros h v. destruct (submit_acquires h v) as (k & -> & Hk).
    by apply (releasing_sequential k).
  - intros v. destruct (truthy (user v)) eqn:Hu.
    + destruct (generate_acquires v Hu) as (k & -> & Hk).
      by apply (releasing_sequential k).
    + unfold generateReferralLink. by rewrite Hu.
Qed.

(** *** Parked handlers, with one taken out *)

Lemma held_delete_other (l : list (origin * suspended)) n x :
  l !! n = Some x → holds_flag x.1 = false →
  filter (fun y => holds_flag y.1 = true) (delete n l)
  = filter (fun y => holds_flag y.1 = true) l.
Proof.
  intros Hn Hx. rewrite <- (take_drop_middle l n x Hn) at 2.
  rewrite delete_take_drop, !filter_app, filter_cons_False; [done|].
  by rewrite Hx.
Qed.

Lemma held_delete_holder (l : list (origin * suspended)) n x :
  l !! n = Some x → holds_flag x.1 = true →
  (length (filter (fun y => holds_flag y.1 = true) l) ≤ 1)%nat →
  filter (fun y => holds_flag y.1 = true) (delete n l) = [].
Proof.
  intros Hn Hx. rewrite <- (take_drop_middle l n x Hn) at 1.
  rewrite delete_take_drop, !filter_app, filter_cons_True by done.
  rewrite length_app. cbn. intros Hlen.
  destruct (filter _ (take n l)); [|cbn in Hlen; lia].
  destruct (filter _ (drop (S n) l)); [done|cbn in Hlen; lia].
Qed.

Lemma held_parked o (parked : list suspended) :
  filter (fun y : origin * suspended => holds_flag y.1 = true) (map (pair o) parked)
  = if holds_flag o then map (pair o) parked else [].
Proof.
  induction parked as [|s parked IH]; [by destruct (holds_flag o)|].
  change (map (pair o) (s :: parked)) with ((o, s) :: map (pair o) parked).
  destruct (holds_flag o) eqn:Ho.
  - rewrite filter_cons_True by done. by rewrite IH.
  - rewrite filter_cons_False; [done|]. cbn. by rewrite Ho.
Qed.

(** *** The invariant *)

(** A handler that never touches the flag, started while the component is
    consistent. *)
Lemma consistent_launch_calm p o t b :
  consistent b → holds_flag o = false → calm unguarded t →
  consistent (launch p o t b).
Proof.
  intros [Hall Hflag] Ho Ht. unfold launch.
  destruct (advance_calm p unguarded t (page b) Ht) as [Hl Hp].
  destruct (advance p t (page b)) as [w parked]. cbn in *.
  split; cbn.
  - apply Forall_app. split; [done|]. apply Forall_fmap.
    eapply Forall_impl; [exact Hp|]. intros s [Hs Hk].
    unfold well_behaved. cbn. rewrite Ho. split; [|done].
    unfold unguarded in Hs. by destruct (guarded_endpoint (waits_for s)).
  - unfold holders in *. cbn in *.
    rewrite filter_app, held_parked, Ho, app_nil_r. by rewrite Hl.
Qed.

(** A handler that raises the flag and will lower it, started while the
    flag is down. *)
Lemma consistent_launch_acquire p o k b :
  consistent b → loading (view (page b)) = false →
  holds_flag o = true → releasing k →
  consistent (launch p o (Do (setLoading true) k) b).
Proof.
  intros [Hall Hflag] Hl Ho Hk. unfold launch. cbn.
  assert (holders b = []) as Hnone.
  { destruct (holders b) as [|? [|? ?]]; [done|congruence|done]. }
  unfold holders in *.
  destruct (advance_releasing p k (apply (setLoading true) (page b)) Hk)
    as [[Hp Hdown]|(s & Hp & Hup & Hs)];
    destruct (advance p k _) as [w parked]; cbn [fst snd] in *; subst parked;
    try (cbn in Hup);
    (split; unfold holders; cbn [in_flight page];
     [|rewrite filter_app, held_parked, Ho, Hnone; cbn; congruence]).
  - by rewrite app_nil_r.
  - apply Forall_app. split; [done|]. repeat constructor.
    unfold well_behaved. cbn. by rewrite Ho.
Qed.

(** A request settles and the handler that waited for it goes on. *)
Lemma consistent_settle p b n o from s :
  consistent b → in_flight b !! n = Some (from, s) →
  consistent (launch p from (resume s o)
                (mkBrowser (page b) (delete n (in_flight b)))).
Proof.
  intros [Hall Hflag] Hn.
  pose proof (Forall_lookup_1 _ _ _ _ Hall Hn) as Hgood.
  assert (Forall well_behaved (delete n (in_flight b))) as Hrest.
  { rewrite delete_take_drop. apply Forall_app. split.
    - by apply Forall_take.
    - by apply Forall_drop. }
  unfold well_behaved in Hgood. cbn in Hgood.
  destruct (holds_flag from) eqn:Hfrom.
  - unfold launch, holders in *. cbn.
    assert (length (filter (fun y => holds_flag y.1 = true) (in_flight b)) ≤ 1)%nat as Hone.
    { destruct (filter _ (in_flight b)) as [|? [|? ?]]; cbn; [lia|lia|done]. }
    assert (loading (view (page b)) = true) as Hup.
    { assert ((from, s) ∈ filter (fun y => holds_flag y.1 = true) (in_flight b)) as Hin.
      { apply list_elem_of_filter. split; [done|]. by eapply list_elem_of_lookup_2. }
      destruct (filter _ (in_flight b)) as [|? [|? ?]]; [|done|done].
      by apply elem_of_nil in Hin. }
    pose proof (held_delete_holder _ _ _ Hn Hfrom Hone) as Hnone.
    destruct (advance_releasing p (resume s o) (page b) (Hgood o))
      as [[Hp Hdown]|(s' & Hp & Hsame & Hs')];
      destruct (advance p (resume s o) (page b)) as [w parked];
      cbn [fst snd] in *; subst parked;
      (split; unfold holders; cbn [in_flight page];
       [|rewrite filter_app, held_parked, Hfrom, Hnone; cbn; congruence]).
    + by rewrite app_nil_r.
    + apply Forall_app. split; [done|]. repeat constructor.
      unfold well_behaved. cbn. by rewrite Hfrom.
  - destruct Hgood as [_ Hcalm].
    apply consistent_launch_calm; [|done|done].
    split; [done|]. unfold holders in *. cbn.
    by rewrite (held_delete_other _ _ _ Hn Hfrom).
Qed.

Lemma consistent_launch_nothing p o b : consistent b → consistent (launch p o (Ret tt) b).
Proof.
  intros H. unfold launch. cbn. rewrite app_nil_r. by destruct b.
Qed.

Lemma consistent_boot c p storage : consistent (boot c p storage).
Proof.
  assert (consistent (mkBrowser (fresh storage) [])) as Hempty by (by split).
  assert (∀ w, loading (view w) = false → ∀ userId,
            consistent (launch p Mounted (Fork (fetchReferralData userId) (Ret tt))
                          (mkBrowser w []))) as Hfork.
  { intros w Hw userId. unfold launch. cbn [advance page in_flight].
    destruct (advance_calm p unguarded (fetchReferralData userId) w
                (calm_fetchReferralData userId)) as [Hl Hp].
    destruct (advance p (fetchReferralData userId) w) as [w1 parked].
    cbn in *. rewrite app_nil_r. split; cbn.
    - apply Forall_fmap. eapply Forall_impl; [exact Hp|]. intros s [Hs Hk].
      unfold well_behaved. cbn. split; [|done]. unfold unguarded in Hs.
      by destruct (guarded_endpoint (waits_for s)).
    - unfold holders. cbn. rewrite held_parked. cbn. congruence. }
  unfold boot.
  destruct c; unfold onMount_of, Admin.onMount, Referral.onMount, launch at 1;
    cbn [advance page in_flight localStorage fresh];
    (destruct (storage !! "adminUser") as [[|c0 text]|]; cbn; [done| |done]);
    (destruct (JSON_parse p (String c0 text)) as [u|]; cbn; [|done]);
    (destruct (get u "id") as [e|userId]; cbn; [done|]);
    match goal with
    | |- context [advance p (fetchReferralData userId) ?W] =>
        apply (Hfork W eq_refl userId)
    end.
Qed.

(** Whatever the user does and however the requests settle, the component
    stays consistent. *)
Lemma reachable_consistent c p b : reachable c p b → consistent b.
Proof.
  induction 1 as [storage|b e b' Hb IH Hstep]; [apply consistent_boot|].
  destruct e; unfold step in Hstep; cbv zeta in Hstep.
  - destruct (form_on_screen c (view (page b))); [|done].
    unfold button_disabled in Hstep.
    destruct (loading (view (page b))) eqn:Hl; [done|]. cbn in Hstep.
    injection Hstep as <-.
    assert (∃ h, onSubmit_of c (view (page b)) = submit h (view (page b))) as [h ->].
    { destruct c; cbn; [|by exists Access].
      unfold Admin.onSubmit. destruct (showLogin _); [by exists Login|by exists Register]. }
    destruct (submit_acquires h (view (page b))) as (k & -> & Hk).
    by apply consistent_launch_acquire.
  - destruct (form_on_screen c (view (page b))); [done|].
    unfold button_disabled in Hstep.
    destruct (loading (view (page b))) eqn:Hl; [done|]. cbn in Hstep.
    injection Hstep as <-.
    destruct (truthy (user (view (page b)))) eqn:Hu.
    + destruct (generate_acquires _ Hu) as (k & -> & Hk).
      by apply consistent_launch_acquire.
    + unfold generateReferralLink. rewrite Hu. by apply consistent_launch_nothing.
  - destruct (form_on_screen c (view (page b))); [done|]. cbn in Hstep.
    injection Hstep as <-.
    apply consistent_launch_calm; [done|done|by destruct c].
  - destruct (form_on_screen c (view (page b))); [|done].
    injection Hstep as <-. by apply consistent_launch_calm.
  - destruct (form_on_screen c (view (page b)) && _); [|done].
    injection Hstep as <-. by apply consistent_launch_calm.
  - destruct c; [|done].
    destruct (form_on_screen AdminPanel (view (page b)) && _); [|done].
    injection Hstep as <-. by apply consistent_launch_calm.
  - destruct c; [|done].
    destruct (form_on_screen AdminPanel (view (page b)) && _); [|done].
    injection Hstep as <-. by apply consistent_launch_calm.
  - destruct (in_flight b !! n) as [[from s]|] eqn:Hn; [|done].
    injection Hstep as <-. by apply consistent_settle.
Qed.

(** *** The two requests of a submission or a generation *)

(** Closes the goal that the handler parked at the summary fetch returns
    with the flag lowered, whatever the answer. *)
Ltac fetch_settles :=
  let d := fresh "d" in
  let r := fresh "r" in
  let w := fresh "w" in
  let Hn := fresh "Hn" in
  intros [d|r] w; cbn; [|done];
  destruct (nullish d) eqn:Hn;
  [rewrite (get_nullish d "success" Hn); by cbn
  |rewrite (get_defined d "success" Hn); cbn;
   destruct (truthy (get_opt d "success")); cbn;
   [rewrite (get_defined d "data" Hn); by cbn|done]].

Lemma submit_staged h p v w0 :
  ∃ s, (advance p (submit h v) w0).2 = [s]
       ∧ waits_for s = credential_request h v
       ∧ staged p s.
Proof.
  destruct h; (eexists; split; [reflexivity|]; split; [reflexivity|]);
    unfold staged; cbn [waits_for resume];
    match goal with
    | |- context [guarded_endpoint ?r] => change (guarded_endpoint r) with true
    end; cbv iota;
    intros [d|r] w; cbn [reaches_fetch];
    try match goal with
        | |- context [code_endpoint ?r] => change (code_endpoint r) with false
        end; cbn [orb]; [|by cbn| |by cbn| |by cbn].
  all: destruct (nullish d) eqn:Hd;
    [assert (truthy (get_opt d "success") = false) as -> by (by destruct d);
     cbn; by rewrite (get_nullish d "success" Hd)|].
  all: cbn; rewrite (get_defined d "success" Hd); cbn;
    destruct (truthy (get_opt d "success")) eqn:Hs; cbn; [|done];
    rewrite (get_defined d "user" Hd); cbn;
    destruct (nullish (get_opt d "user")) eqn:Hn; cbn;
    [by rewrite (get_nullish _ "id" Hn)|];
    rewrite (get_defined _ "id" Hn); cbn;
    unfold fetchReferralData; cbn;
    (split; [done|]); eexists; (split; [reflexivity|]); (split; [reflexivity|]);
    unfold finishing; cbn [resume]; fetch_settles.
Qed.

Lemma generate_staged p v w0 :
  Forall (staged p) (advance p (generateReferralLink v) w0).2.
Proof.
  unfold generateReferralLink. destruct (truthy (user v)) eqn:Hu; cbn; [|constructor].
  rewrite (get_defined _ "id" (truthy_not_nullish _ Hu)). cbn.
  repeat constructor.
  unfold staged; cbn [waits_for resume].
  match goal with
  | |- context [guarded_endpoint ?r] => change (guarded_endpoint r) with true
  end. cbv iota.
  intros [d|r] w; cbn [reaches_fetch]; [|by cbn].
  match goal with
  | |- context [code_endpoint ?r] => change (code_endpoint r) with true
  end. cbn [orb]. rewrite andb_true_r.
  destruct (nullish d) eqn:Hd;
    [assert (truthy (get_opt d "success") = false) as -> by (by destruct d);
     cbn; by rewrite (get_nullish d "success" Hd)|].
  cbn. rewrite (get_defined d "success" Hd). cbn.
  destruct (truthy (get_opt d "success")) eqn:Hs; cbn; [|done].
  unfold fetchReferralData. cbn.
  split; [done|]. eexists. split; [reflexivity|]. split; [reflexivity|].
  unfold finishing; cbn [resume]. fetch_settles.
Qed.

(** What a staged handler parks when its request settles is staged. *)
Lemma staged_resume p s o w :
  staged p s → Forall (staged p) (advance p (resume s o) w).2.
Proof.
  unfold staged. destruct (guarded_endpoint (waits_for s)).
  - intros H. specialize (H o w). destruct (reaches_fetch (waits_for s) o).
    + destruct H as (_ & s' & -> & Hurl & Hs'). repeat constructor.
      unfold guarded_endpoint. rewrite Hurl. exact Hs'.
    + destruct H as [-> _]. constructor.
  - intros H. destruct (H o w) as [-> _]. constructor.
Qed.

(** Every parked handler of a submission or a generation is staged. *)
Lemma reachable_staged c p b :
  reachable c p b →
  Forall (fun x : origin * suspended => holds_flag x.1 = true → staged p x.2)
    (in_flight b).
Proof.
  set (P := fun x : origin * suspended => holds_flag x.1 = true → staged p x.2).
  assert (∀ from t b0,
            Forall P (in_flight b0) →
            holds_flag from = false ∨ Forall (staged p) (advance p t (page b0)).2 →
            Forall P (in_flight (launch p from t b0))) as Hlaunch.
  { intros from t b0 Hb0 Ht. unfold launch.
    destruct (advance p t (page b0)) as [w parked]. cbn in *.
    apply Forall_app. split; [done|]. apply Forall_fmap.
    destruct Ht as [Hfrom|Ht].
    - apply Forall_forall. intros s _. unfold P. cbn. congruence.
    - eapply Forall_impl; [exact Ht|]. intros s Hs _. exact Hs. }
  induction 1 as [storage|b e b' Hb IH Hstep].
  - apply Hlaunch; [constructor|by left].
  - destruct e; unfold step in Hstep; cbv zeta in Hstep.
    + destruct (_ && _); [|done]. injection Hstep as <-.
      apply Hlaunch; [done|right].
      assert (∃ h, onSubmit_of c (view (page b)) = submit h (view (page b))) as [h ->].
      { destruct c; cbn; [|by exists Access].
        unfold Admin.onSubmit. destruct (showLogin _); [by exists Login|by exists Register]. }
      destruct (submit_staged h p (view (page b)) (page b)) as (s & -> & _ & Hs).
      by repeat constructor.
    + destruct (_ && _); [|done]. injection Hstep as <-.
      apply Hlaunch; [done|right]. apply generate_staged.
    + destruct (negb _); [|done]. injection Hstep as <-. apply Hlaunch; [done|by left].
    + destruct (form_on_screen _ _); [|done]. injection Hstep as <-.
      apply Hlaunch; [done|by left].
    + destruct (_ && _); [|done]. injection Hstep as <-. apply Hlaunch; [done|by left].
    + destruct c; [|done]. destruct (_ && _); [|done]. injection Hstep as <-.
      apply Hlaunch; [done|by left].
    + destruct c; [|done]. destruct (_ && _); [|done]. injection Hstep as <-.
      apply Hlaunch; [done|by left].
    + destruct (in_flight b !! n) as [[from s]|] eqn:Hn; [|done].
      injection Hstep as <-.
      apply Hlaunch; cbn [in_flight page].
      * rewrite delete_take_drop. apply Forall_app. split.
        -- by apply Forall_take.
        -- by apply Forall_drop.
      * destruct (holds_flag from) eqn:Hfrom; [right|by left].
        apply staged_resume. apply (Forall_lookup_1 _ _ _ _ IH Hn). exact Hfrom.
Qed.

(** C8 (as amended): in every state the component can reach, while a handler
    started by a submission or by the generate button is parked at a request,
    and while any request to a credential or code-generation endpoint is in
    flight, the loading flag is [true], both buttons are disabled and neither
    handler can be started again; when no such handler is parked the flag is
    [false].  When the credential or code request of such a handler settles,
    the flag is lowered in that very step if the request was rejected, was
    answered without a truthy [success], or was a credential request answered
    without a user, and the handler is gone; but if the handler goes on to
    the summary fetch, the flag stays [true] and the buttons stay disabled,
    with the handler parked at that fetch, and the flag is lowered only in
    the step in which the fetch settles, whatever its outcome. *)
Theorem loading_flag_brackets_requests c p b :
  reachable c p b →
  (∀ from s, (from, s) ∈ in_flight b →
     holds_flag from = true ∨ guarded_endpoint (waits_for s) = true →
     loading (view (page b)) = true
     ∧ button_disabled (view (page b)) = true
     ∧ step c p SubmitForm b = None
     ∧ step c p ClickGenerate b = None)
  ∧ (holders b = [] → loading (view (page b)) = false)
  ∧ (∀ n from s o, in_flight b !! n = Some (from, s) → holds_flag from = true →
       ∃ b', step c p (Settle n o) b = Some b'
             ∧ if guarded_endpoint (waits_for s) && reaches_fetch (waits_for s) o
               then loading (view (page b')) = true
                    ∧ button_disabled (view (page b')) = true
                    ∧ ∃ s', in_flight b' = delete n (in_flight b) ++ [(from, s')]
                            ∧ url (waits_for s')
                              = API_BASE_URL +:+ "/referral/admin/summary"
                            ∧ ∀ o', ∃ b'',
                                step c p (Settle (length (delete n (in_flight b))) o') b'
                                = Some b''
                                ∧ loading (view (page b'')) = false
                                ∧ in_flight b'' = delete n (in_flight b)
               else loading (view (page b')) = false
                    ∧ button_disabled (view (page b')) = false
                    ∧ in_flight b' = delete n (in_flight b)).
Proof.
  intros Hb. pose proof (reachable_consistent c p b Hb) as [Hall Hflag].
  assert (∀ from s, (from, s) ∈ in_flight b → holds_flag from = true →
            loading (view (page b)) = true) as Hheld.
  { intros from s Hin Hfrom.
    assert ((from, s) ∈ holders b) as Hh by (by apply list_elem_of_filter).
    destruct (holders b) as [|? [|? ?]]; [|done|done].
    by apply elem_of_nil in Hh. }
  split; [|split].
  - intros from s Hin Hwhy.
    assert (holds_flag from = true) as Hfrom.
    { destruct Hwhy as [?|Hg]; [done|].
      pose proof (proj1 (Forall_forall _ _) Hall _ Hin) as Hgood.
      unfold well_behaved in Hgood. cbn in Hgood.
      destruct (holds_flag from); [done|]. destruct Hgood. congruence. }
    pose proof (Hheld from s Hin Hfrom) as Hup.
    unfold step, button_disabled. rewrite Hup.
    by rewrite !andb_false_r.
  - intros Hnone. by rewrite Hnone in Hflag.
  - intros n from s o Hn Hfrom.
    pose proof (Hheld from s (list_elem_of_lookup_2 _ _ _ Hn) Hfrom) as Hup.
    pose proof (Forall_lookup_1 _ _ _ _ (reachable_staged c p b Hb) Hn Hfrom) as Hs.
    cbn in Hs. unfold staged in Hs.
    eexists. unfold step. rewrite Hn. split; [reflexivity|].
    unfold launch, button_disabled. cbn [page in_flight].
    destruct (guarded_endpoint (waits_for s)); cbn [andb].
    + specialize (Hs o (page b)).
      destruct (reaches_fetch (waits_for s) o).
      * destruct Hs as (Hsame & s' & Hp & Hurl & Hs').
        destruct (advance p (resume s o) (page b)) as [w1 parked].
        cbn [fst snd] in *. subst parked. cbn [page in_flight map].
        rewrite Hsame, Hup. split; [done|]. split; [done|].
        exists s'. split; [done|]. split; [done|].
        intros o'. eexists. rewrite list_lookup_middle by done.
        split; [reflexivity|]. cbn [page in_flight].
        destruct (Hs' o' w1) as [Hp' Hdown].
        destruct (advance p (resume s' o') w1) as [w2 parked'].
        cbn [fst snd] in *. subst parked'. cbn [page in_flight map].
        split; [done|].
        rewrite app_nil_r.
        rewrite (delete_middle (delete n (in_flight b)) [] (from, s')).
        by rewrite app_nil_r.
      * destruct Hs as [Hp Hdown].
        destruct (advance p (resume s o) (page b)) as [w1 parked].
        cbn [fst snd] in *. subst parked. cbn [page in_flight map].
        by rewrite app_nil_r.
    + destruct (Hs o (page b)) as [Hp Hdown].
      destruct (advance p (resume s o) (page b)) as [w1 parked].
      cbn [fst snd] in *. subst parked. cbn [page in_flight map].
      by rewrite app_nil_r.
Qed.

Lemma loading_flag_witness :
  let p := scripted [] [] in
  let b0 := boot AdminPanel p ∅ in
  let b1 := launch p Other (perform (setFormData (mkFormData "ada@example.org" ""))) b0 in
  let b2 := launch p Submitted (onSubmit_of AdminPanel (view (page b1))) b1 in
  step AdminPanel p (EditEmail "ada@example.org") b0 = Some b1
  ∧ step AdminPanel p SubmitForm b1 = Some b2
  ∧ loading (view (page b2)) = true
  ∧ button_disabled (view (page b2)) = true
  ∧ step AdminPanel p SubmitForm b2 = None
  ∧ step AdminPanel p ClickGenerate b2 = None
  ∧ ∃ b3, step AdminPanel p (Settle 0 (Rejected None)) b2 = Some b3
          ∧ loading (view (page b3)) = false
          ∧ in_flight b3 = [].
Proof.
  intros p b0 b1 b2. split; [reflexivity|]. split; [reflexivity|].
  assert (reachable AdminPanel p b2) as Hb2.
  { apply (reach_step AdminPanel p b1 SubmitForm b2); [|reflexivity].
    apply (reach_step AdminPanel p b0 (EditEmail "ada@example.org") b1); [|reflexivity].
    apply reach_boot. }
  pose (s := hd (mkSuspended (summary_request Null) (fun _ => Ret tt))
               (advance p (submit Login (view (page b1))) (page b1)).2).
  destruct (loading_flag_brackets_requests AdminPanel p b2 Hb2) as (H1 & _ & H3).
  destruct (H1 Submitted s) as (Hl & Hd & Hs & Hg);
    [apply list_elem_of_here | left; reflexivity |].
  destruct (H3 0%nat Submitted s (Rejected None) eq_refl eq_refl) as (b3 & Hstep & Hrest).
  assert (guarded_endpoint (waits_for s) && reaches_fetch (waits_for s) (Rejected None)
          = false) as Hcase by reflexivity.
  rewrite Hcase in Hrest. destruct Hrest as (Hdown & _ & Hgone).
  split; [exact Hl|]. split; [exact Hd|]. split; [exact Hs|]. split; [exact Hg|].
  exists b3. split; [exact Hstep|]. split; [exact Hdown|exact Hgone].
Defined.

(** C8, the input on which the claim as worded fails: a user types an email
    into the login form and submits it, and the login request completes with
    [success: true] and a user.  In the state that follows the login request
    is no longer in flight and the dashboard is up, yet the loading flag is
    still [true] and the generate button is disabled: the handler is parked
    at the summary fetch, and only [finally] after it lowers the flag. *)
Lemma loading_outlasts_successful_login :
  let p := scripted [] [] in
  let u := Obj [("id", Str "u1"); ("email", Str "ada@example.org")] in
  let b0 := boot AdminPanel p ∅ in
  let filled := mkView Null Null false (Str "") true false
                  (mkFormData "ada@example.org" "") in
  match step AdminPanel p (EditEmail "ada@example.org") b0 with
  | Some b1 =>
      match step AdminPanel p SubmitForm b1 with
      | Some b2 =>
          match step AdminPanel p
                  (Settle 0 (Resolved (Obj [("success", Bool true); ("user", u)]))) b2 with
          | Some b3 =>
              map (fun x => waits_for x.2) (in_flight b2) = [credential_request Login filled]
              ∧ map (fun x => waits_for x.2) (in_flight b3) = [summary_request (Str "u1")]
              ∧ user (view (page b3)) = u
              ∧ Admin.render (view (page b3)) = Admin.Dashboard
              ∧ loading (view (page b3)) = true
              ∧ button_disabled (view (page b3)) = true
              ∧ step AdminPanel p ClickGenerate b3 = None
          | None => False
          end
      | None => False
      end
  | None => False
  end.
Proof. vm_compute. repeat split. Qed.

(** * Further properties of the handlers *)

(** ** What a sparing body leaves invariant *)

Lemma spares_bind {A B : Type} bad (t : task A) (f : A → task B) :
  spares bad t → (∀ a, spares bad (f a)) → spares bad (bind t f).
Proof.
  intros Ht Hf. induction t; cbn in *; auto.
  all: destruct Ht; split; auto.
Qed.

Lemma spares_try_catch {A : Type} bad (t : task A) (h : exn → task A) :
  spares bad t → (∀ e, spares bad (h e)) → spares bad (try_catch t h).
Proof.
  intros Ht Hh. induction t; cbn in *; auto.
  all: destruct Ht; split; auto.
Qed.

Lemma spares_finally {A : Type} bad (t : task A) (c : task unit) :
  spares bad t → spares bad c → spares bad (finally t c).
Proof.
  intros Ht Hc. induction t; cbn in *; auto.
  1,2: by apply (spares_bind bad c).
  all: destruct Ht; split; auto.
Qed.

Lemma spares_eval {A : Type} bad (x : exn + A) : spares bad (eval x).
Proof. by destruct x. Qed.

Lemma spares_await bad r : spares bad (await r).
Proof. by intros []. Qed.

Lemma run_spares {A : Type} p bad (I : World → Prop) (t : task A) w :
  (∀ a w', bad a = false → I w' → I (apply a w')) →
  (∀ r w', I w' → I (record_request r w')) →
  spares bad t → I w → I (run p t w).2.
Proof.
  intros Ha Hr. revert w.
  induction t; intros w Ht Hw; cbn in *; auto.
  - destruct Ht. auto.
  - destruct Ht. auto.
Qed.

(** Solves [spares bad handler] for a handler of the component. *)
Ltac sparing :=
  unfold fetchReferralData;
  repeat first
    [ apply spares_finally
    | apply spares_try_catch
    | apply spares_bind
    | apply spares_eval
    | apply spares_await
    | intro
    | match goal with
      | |- spares _ (if ?c then _ else _) => destruct c
      | |- spares _ (match ?x with _ => _ end) => destruct x
      end
    | progress cbn [spares perform JSON_parse_ JSON_stringify_]
    | split
    | reflexivity
    | exact I ].

Lemma fetchReferralData_spares bad userId :
  bad (setReferralData Null) = false → (∀ d, bad (setReferralData d) = false) →
  (∀ l e, bad (console_error l e) = false) →
  spares bad (fetchReferralData userId).
Proof.
  intros _ Hd Hc. sparing; auto.
Qed.

Lemma handlers_spare_other_keys :
  (∀ userId, spares writes_other_key (fetchReferralData userId))
  ∧ (∀ h v, spares writes_other_key (submit h v))
  ∧ (∀ v, spares writes_other_key (generateReferralLink v))
  ∧ (∀ c, spares writes_other_key (onMount_of c))
  ∧ (∀ c, spares writes_other_key (handleLogout_of c)).
Proof.
  repeat split.
  - intros userId. sparing.
  - intros [] v; unfold submit, Admin.handleLogin, Admin.handleRegister,
      Referral.handleSubmit; sparing.
  - intros v. unfold generateReferralLink. sparing.
  - intros []; unfold onMount_of, Admin.onMount, Referral.onMount; sparing.
  - intros []; unfold handleLogout_of, Admin.handleLogout, Referral.handleLogout; sparing.
Qed.

Lemma handlers_spare_storage :
  (∀ userId, spares writes_storage (fetchReferralData userId))
  ∧ (∀ v, spares writes_storage (generateReferralLink v)).
Proof.
  split.
  - intros userId. sparing.
  - intros v. unfold generateReferralLink. sparing.
Qed.

(** ** Local storage *)

(** X2: the summary fetch and code generation never write local storage,
    and the credential handlers, the mount effects and logout write no key
    other than ["adminUser"]. *)
Theorem only_the_session_key_is_written p w :
  (∀ userId, localStorage (run p (fetchReferralData userId) w).2 = localStorage w)
  ∧ (∀ v, localStorage (run p (generateReferralLink v) w).2 = localStorage w)
  ∧ (∀ key, key ≠ "adminUser" →
       (∀ h v, localStorage (run p (submit h v) w).2 !! key = localStorage w !! key)
       ∧ (∀ c, localStorage (run p (onMount_of c) w).2 !! key = localStorage w !! key)
       ∧ (∀ c, localStorage (run p (handleLogout_of c) w).2 !! key
               = localStorage w !! key)).
Proof.
  destruct handlers_spare_storage as (Hf & Hg).
  destruct handlers_spare_other_keys as (_ & Hs & _ & Hm & Hl).
  assert (∀ A (t : task A), spares writes_storage t →
            localStorage (run p t w).2 = localStorage w) as Hnone.
  { intros A t Ht.
    apply (run_spares p writes_storage
             (fun w' => localStorage w' = localStorage w)); try done.
    by intros [] w'. }
  assert (∀ key, key ≠ "adminUser" → ∀ A (t : task A), spares writes_other_key t →
            localStorage (run p t w).2 !! key = localStorage w !! key) as Hkey.
  { intros key Hne A t Ht.
    apply (run_spares p writes_other_key
             (fun w' => localStorage w' !! key = localStorage w !! key)); try done.
    intros [] w' Hbad Hw'; cbn in *; try done.
    - apply negb_false_iff, String.eqb_eq in Hbad. subst.
      by rewrite lookup_insert_ne.
    - apply negb_false_iff, String.eqb_eq in Hbad. subst.
      by rewrite lookup_delete_ne. }
  split; [|split].
  - intros userId. apply Hnone, Hf.
  - intros v. apply Hnone, Hg.
  - intros key Hne. repeat split; intros; by apply Hkey.
Qed.

Lemma only_the_session_key_witness :
  let p := scripted [] [Resolved (Obj [("success", Bool true);
                                      ("user", Obj [("id", Str "u1")])])] in
  let v := mkView Null Null false (Str "") true false (mkFormData "ada@example.org" "") in
  let w := mkWorld v {["theme" := "dark"]} [] [] in
  localStorage (run p (submit Login v) w).2 !! "theme" = Some "dark".
Proof.
  intros p v w.
  destruct (only_the_session_key_is_written p w) as (_ & _ & H).
  destruct (H "theme") as (Hs & _); [discriminate|].
  exact (Hs Login v).
Defined.

(** ** No handler rejects *)

Lemma run_try_catch_total p (t : task unit) (h : exn → task unit) w :
  (∀ e w', (run p (h e) w').1 = inr tt) → (run p (try_catch t h) w).1 = inr tt.
Proof.
  intros Hh. rewrite run_try_catch.
  destruct (run p t w) as [[e|[]] w1]; [apply Hh|done].
Qed.

Lemma run_finally_total p (t : task unit) (c : task unit) w :
  (∀ w', (run p c w').1 = inr tt) → (run p (finally t c) w).1 = (run p t w).1.
Proof.
  intros Hc. rewrite run_finally.
  destruct (run p t w) as [x w1]. specialize (Hc w1).
  destruct (run p c w1) as [[e|[]] w2]; [discriminate|done].
Qed.

(** The common shape of the three credential handlers. *)
Lemma submit_shape h v :
  ∃ body,
    submit h v
    = Do (setLoading true)
        (Do (setError (Str ""))
           (finally
              (try_catch body
                 (fun err =>
                    perform (setError (or_else (server_message err) (fallback h)))))
              (perform (setLoading false)))).
Proof. destruct h; eexists; reflexivity. Qed.

Lemma generate_shape v :
  truthy (user v) = true →
  ∃ body,
    generateReferralLink v
    = Do (setLoading true)
        (finally
           (try_catch body
              (fun err => perform (setError (Str "Failed to generate referral link"))))
           (perform (setLoading false))).
Proof.
  intros Hu. unfold generateReferralLink. rewrite Hu. eexists. reflexivity.
Qed.

(** X1: run to its end on any platform and from any state, no handler of
    the component ends in an exception: every failure of a request, of
    [JSON.parse] or of a property read is caught inside it. *)
Theorem handlers_never_throw p w :
  (∀ userId, (run p (fetchReferralData userId) w).1 = inr tt)
  ∧ (∀ h v, (run p (submit h v) w).1 = inr tt)
  ∧ (∀ v, (run p (generateReferralLink v) w).1 = inr tt)
  ∧ (∀ c, (run p (onMount_of c) w).1 = inr tt)
  ∧ (∀ c, (run p (handleLogout_of c) w).1 = inr tt).
Proof.
  split; [|split; [|split; [|split]]].
  - intros userId. by destruct (fetchReferralData_frame p w userId) as [? _].
  - intros h v. destruct (submit_shape h v) as [body ->]. cbn [run].
    rewrite run_finally_total by done. by apply run_try_catch_total.
  - intros v. destruct (truthy (user v)) eqn:Hu.
    + destruct (generate_shape v Hu) as [body ->]. cbn [run].
      rewrite run_finally_total by done. by apply run_try_catch_total.
    + by rewrite run_generate_signed_out.
  - intros c.
    assert (∀ body, (run p (try_catch body
                              (fun _ : exn => perform (removeItem "adminUser"))) w).1
                    = inr tt) as Hcatch
      by (intros body; by apply run_try_catch_total).
    destruct c; unfold onMount_of, Admin.onMount, Referral.onMount; cbn [run];
      (destruct (localStorage w !! "adminUser") as [text|]; [|done]);
      (destruct (truthy (Str text)); [apply Hcatch|done]).
  - by intros [].
Qed.

(** ** Responses that lack what the handlers read *)

Lemma run_submit_no_body h p v w d :
  network p (length (sent w)) (credential_request h v) = Resolved d →
  nullish d = true →
  run p (submit h v) w =
  (inr tt,
   apply (setLoading false)
     (apply (setError (fallback h))
        (record_request (credential_request h v)
           (apply (setError (Str "")) (apply (setLoading true) w))))).
Proof.
  intros Hnet Hd.
  destruct h; cbn in *; rewrite Hnet; cbn; by rewrite (get_nullish d "success" Hd).
Qed.

(** X3: a response whose body is [null] or [undefined] is handled like a
    failed request.  A credential handler then shows its fallback string,
    stores nothing and fetches nothing; code generation shows its fixed
    string and does not re-fetch. *)
Theorem missing_body_is_a_failure p w :
  (∀ h v d,
     network p (length (sent w)) (credential_request h v) = Resolved d →
     nullish d = true →
     let out := run p (submit h v) w in
     error (view out.2) = fallback h
     ∧ user (view out.2) = user (view w)
     ∧ referralData (view out.2) = referralData (view w)
     ∧ localStorage out.2 = localStorage w
     ∧ issued w out.2 = [credential_request h v]
     ∧ loading (view out.2) = false)
  ∧ (∀ v d,
       truthy (user v) = true →
       network p (length (sent w)) (code_request (get_opt (user v) "id")) = Resolved d →
       nullish d = true →
       let out := run p (generateReferralLink v) w in
       error (view out.2) = Str "Failed to generate referral link"
       ∧ referralData (view out.2) = referralData (view w)
       ∧ issued w out.2 = [code_request (get_opt (user v) "id")]
       ∧ loading (view out.2) = false).
Proof.
  split.
  - intros h v d Hnet Hd. cbn zeta. rewrite (run_submit_no_body _ _ _ _ _ Hnet Hd).
    repeat split. by apply issued_app.
  - intros v d Hu Hnet Hd. cbn zeta.
    assert (truthy (get_opt d "success") = false) as Hs by (by destruct d).
    rewrite (run_generate_unsuccessful _ _ _ _ Hu Hnet Hs), Hd.
    repeat split. by apply issued_app.
Qed.

Lemma missing_body_witness :
  let p := scripted [] [Resolved Null] in
  let v := mkView Null Null false (Str "") true false (mkFormData "ada@example.org" "") in
  let out := run p (submit Login v) (mkWorld v ∅ [] []) in
  error (view out.2) = Str "Login failed"
  ∧ user (view out.2) = Null
  ∧ localStorage out.2 = ∅.
Proof.
  intros p v out.
  destruct (missing_body_is_a_failure p (mkWorld v ∅ [] [])) as [H _].
  destruct (H Login v Null eq_refl eq_refl) as (He & Hu & _ & Hs & _).
  exact (conj He (conj Hu Hs)).
Defined.

(** X4: a response with a truthy [success] but no user is applied halfway:
    the user slot and the ["adminUser"] entry are overwritten with the
    missing value, the panel with the toggle leaves its form, and only then
    the read of [user.id] throws, so that the fallback string is set and no
    summary is fetched. *)
Theorem success_without_user_is_half_applied h p v w d :
  network p (length (sent w)) (credential_request h v) = Resolved d →
  truthy (get_opt d "success") = true →
  nullish (get_opt d "user") = true →
  let out := run p (submit h v) w in
  let u := get_opt d "user" in
  out.1 = inr tt
  ∧ user (view out.2) = u
  ∧ localStorage out.2 = <["adminUser" := JSON_stringify p u]> (localStorage w)
  ∧ error (view out.2) = fallback h
  ∧ issued w out.2 = [credential_request h v]
  ∧ loading (view out.2) = false
  ∧ match h with
    | Login | Register => Admin.render (view out.2) = Admin.Dashboard
    | Access => Referral.render (view out.2) = Referral.AccessForm
    end.
Proof.
  intros Hnet Hs Hn.
  pose proof (truthy_get_opt _ _ Hs) as Hd.
  assert (truthy (get_opt d "user") = false) as Hfalsy
    by (by destruct (get_opt d "user")).
  cbn zeta.
  destruct h; cbn in *; rewrite Hnet; cbn;
    rewrite (get_defined d "success" Hd); cbn; rewrite Hs; cbn;
    rewrite (get_defined d "user" Hd); cbn;
    rewrite (get_nullish _ "id" Hn); cbn;
    try (unfold Referral.render; cbn; rewrite Hfalsy);
    repeat split; by apply issued_app.
Qed.

Lemma success_without_user_witness :
  let p := scripted [] [Resolved (Obj [("success", Bool true)])] in
  let v := mkView Null Null false (Str "") true false (mkFormData "ada@example.org" "") in
  let out := run p (submit Login v) (mkWorld v ∅ [] []) in
  user (view out.2) = Undefined
  ∧ localStorage out.2 !! "adminUser" = Some "undefined"
  ∧ error (view out.2) = Str "Login failed"
  ∧ Admin.render (view out.2) = Admin.Dashboard.
Proof.
  intros p v out.
  destruct (success_without_user_is_half_applied Login p v (mkWorld v ∅ [] [])
              (Obj [("success", Bool true)]) eq_refl eq_refl eq_refl)
    as (_ & Hu & Hs & He & _ & _ & Hr).
  subst out. split; [exact Hu|]. split; [by rewrite Hs|]. exact (conj He Hr).
Defined.

(** ** Logout after anything *)

Lemma run_keeps_other_keys {A : Type} p (t : task A) w :
  spares writes_other_key t →
  delete "adminUser" (localStorage (run p t w).2) = delete "adminUser" (localStorage w).
Proof.
  intros Ht.
  apply (run_spares p writes_other_key
           (fun w' => delete "adminUser" (localStorage w')
                      = delete "adminUser" (localStorage w))); try done.
  intros [] w' Hbad Hw'; cbn in *; try done.
  - apply negb_false_iff, String.eqb_eq in Hbad. subst.
    by rewrite delete_insert_eq.
  - apply negb_false_iff, String.eqb_eq in Hbad. subst.
    by rewrite delete_delete_eq.
Qed.

(** X5: logout undoes whatever a credential submission or a mount effect
    stored: run after either of them, whatever the server answered, it
    leaves local storage as it was before them minus the ["adminUser"]
    entry, with the user and the referral data [null] and the form fields
    empty; and a second logout changes nothing. *)
Theorem logout_erases_any_session c p w :
  (∀ h v,
     let out := (run p (handleLogout_of c) (run p (submit h v) w).2).2 in
     localStorage out = delete "adminUser" (localStorage w)
     ∧ user (view out) = Null
     ∧ referralData (view out) = Null
     ∧ formData (view out) = mkFormData "" "")
  ∧ (∀ c',
       let out := (run p (handleLogout_of c) (run p (onMount_of c') w).2).2 in
       localStorage out = delete "adminUser" (localStorage w)
       ∧ user (view out) = Null
       ∧ referralData (view out) = Null
       ∧ formData (view out) = mkFormData "" "")
  ∧ (run p (handleLogout_of c) (run p (handleLogout_of c) w).2).2
    = (run p (handleLogout_of c) w).2.
Proof.
  destruct handlers_spare_other_keys as (_ & Hs & _ & Hm & _).
  split; [|split].
  - intros h v. cbn zeta.
    pose proof (run_keeps_other_keys p (submit h v) w (Hs h v)) as Hk.
    destruct (run p (submit h v) w) as [x after]. by destruct c.
  - intros c'. cbn zeta.
    pose proof (run_keeps_other_keys p (onMount_of c') w (Hm c')) as Hk.
    destruct (run p (onMount_of c') w) as [x after]. by destruct c.
  - destruct c; cbn; by rewrite delete_delete_eq.
Qed.

(** ** The mount effect on a stored session *)

Lemma run_onMount_absent c p w :
  localStorage w !! "adminUser" = None ∨ localStorage w !! "adminUser" = Some "" →
  run p (onMount_of c) w = (inr tt, w).
Proof.
  intros [H|H]; destruct c; unfold onMount_of, Admin.onMount, Referral.onMount;
    cbn; by rewrite H.
Qed.

Lemma run_onMount_parsed c p w text u :
  localStorage w !! "adminUser" = Some text →
  text ≠ "" →
  JSON_parse p text = Some u →
  run p (onMount_of c) w =
  (inr tt,
   if nullish u then apply (removeItem "adminUser") (restored c u w)
   else (run p (fetchReferralData (get_opt u "id")) (restored c u w)).2).
Proof.
  intros Hget Hne Hparse.
  destruct c; unfold onMount_of, Admin.onMount, Referral.onMount; cbn;
    rewrite Hget; (destruct text; [done|]); cbn; rewrite Hparse; cbn;
    (destruct (nullish u) eqn:Hn;
     [by rewrite (get_nullish _ "id" Hn)|by rewrite (get_defined _ "id" Hn)]).
Qed.

(** X6: on the first render, a stored text that parses to a value other
    than [null] or [undefined] becomes the user, as it is; local storage is
    left alone; exactly one request is issued, the summary fetch for that
    value's [id]; no error is shown and the loading flag stays down.  The
    panel with the toggle then shows the dashboard; the referral-only variant
    shows it only if the parsed value is truthy.  The referral data is the
    fetch's [data] if the fetch succeeds and stays [null] if it is
    rejected. *)
Theorem stored_session_is_restored c p storage text u :
  storage !! "adminUser" = Some text →
  text ≠ "" →
  JSON_parse p text = Some u →
  nullish u = false →
  let out := run p (onMount_of c) (fresh storage) in
  let answer := network p 0 (summary_request (get_opt u "id")) in
  user (view out.2) = u
  ∧ localStorage out.2 = storage
  ∧ sent out.2 = [summary_request (get_opt u "id")]
  ∧ error_shown (view out.2) = false
  ∧ loading (view out.2) = false
  ∧ match c with
    | AdminPanel => Admin.render (view out.2) = Admin.Dashboard
    | ReferralPanel =>
        Referral.render (view out.2)
        = if truthy u then Referral.Dashboard else Referral.AccessForm
    end
  ∧ (∀ d, answer = Resolved d → truthy (get_opt d "success") = true →
       referralData (view out.2) = get_opt d "data")
  ∧ (∀ r, answer = Rejected r → referralData (view out.2) = Null).
Proof.
  intros Hget Hne Hparse Hn. cbn zeta.
  rewrite (run_onMount_parsed c p (fresh storage) text u Hget Hne Hparse), Hn.
  cbn [snd].
  destruct (fetchReferralData_frame p (restored c u (fresh storage)) (get_opt u "id"))
    as (_ & Hsent & Hstore & Huser & Hload & Herr & Hlogin & Hreg & _).
  destruct (fetchReferralData_outcomes p (restored c u (fresh storage)) (get_opt u "id"))
    as (Hrej & _ & Hyes).
  assert (sent (restored c u (fresh storage)) = []) as Hnil by (by destruct c).
  rewrite Hnil in Hsent, Hrej, Hyes. cbn [length] in Hrej, Hyes.
  unfold error_shown, Admin.render, Referral.render.
  rewrite Huser, Hstore, Hsent, Hload, Herr, Hlogin, Hreg.
  repeat split; try (by destruct c).
  - destruct c; cbn; [done|]. by destruct (truthy u).
  - intros r Hr. destruct (Hrej r Hr) as [-> _]. by destruct c.
Qed.

Lemma stored_session_witness :
  let u := Obj [("id", Str "u1"); ("fullName", Str "Ada")] in
  let p := scripted [u] [Rejected None] in
  let out := run p (onMount_of AdminPanel) (fresh {["adminUser" := print u]}) in
  user (view out.2) = u
  ∧ sent out.2 = [summary_request (Str "u1")]
  ∧ referralData (view out.2) = Null.
Proof.
  intros u p out.
  destruct (stored_session_is_restored AdminPanel p {["adminUser" := print u]}
              (print u) u)
    as (Hu & _ & Hs & _ & _ & _ & _ & Hr);
    [reflexivity | discriminate | reflexivity | reflexivity |].
  exact (conj Hu (conj Hs (Hr None eq_refl))).
Defined.

(** X7: a session survives a reload.  If [JSON.parse] reads back what
    [JSON.stringify] wrote for the user a successful submission returned,
    the mount effect of either variant, run in a fresh page over the storage
    the submission left, restores that very user, fetches the summary for its
    [id] and leaves the storage as it found it. *)
Theorem stored_session_round_trip h c p v w d :
  network p (length (sent w)) (credential_request h v) = Resolved d →
  truthy (get_opt d "success") = true →
  nullish (get_opt d "user") = false →
  JSON_stringify p (get_opt d "user") ≠ "" →
  JSON_parse p (JSON_stringify p (get_opt d "user")) = Some (get_opt d "user") →
  let stored := localStorage (run p (submit h v) w).2 in
  let out := run p (onMount_of c) (fresh stored) in
  user (view out.2) = get_opt d "user"
  ∧ sent out.2 = [summary_request (get_opt (get_opt d "user") "id")]
  ∧ localStorage out.2 = stored.
Proof.
  intros Hnet Hs Hn Hne Hparse. cbn zeta.
  destruct (submit_successful h p v w d Hnet Hs Hn) as (_ & _ & Hstore & _).
  assert (localStorage (fresh (localStorage (run p (submit h v) w).2)) !! "adminUser"
          = Some (JSON_stringify p (get_opt d "user"))) as Hget.
  { cbn. rewrite Hstore. apply lookup_insert_eq. }
  rewrite (run_onMount_parsed c p _ _ _ Hget Hne Hparse), Hn. cbn [snd].
  match goal with
  | |- context [run p (fetchReferralData ?i) ?W] =>
      destruct (fetchReferralData_frame p W i) as (_ & -> & -> & -> & _)
  end.
  by destruct c.
Qed.

Lemma stored_session_round_trip_witness :
  let u := Obj [("id", Str "u1"); ("fullName", Str "Ada")] in
  let p := scripted [u] [Resolved (Obj [("success", Bool true); ("user", u)])] in
  let v := mkView Null Null false (Str "") true false (mkFormData "ada@example.org" "") in
  let stored := localStorage (run p (submit Login v) (mkWorld v ∅ [] [])).2 in
  let out := run p (onMount_of ReferralPanel) (fresh stored) in
  user (view out.2) = u
  ∧ sent out.2 = [summary_request (Str "u1")]
  ∧ localStorage out.2 = stored.
Proof.
  intros u p v stored out.
  apply (stored_session_round_trip Login ReferralPanel p v (mkWorld v ∅ [] [])
           (Obj [("success", Bool true); ("user", u)]));
    [reflexivity | reflexivity | reflexivity | discriminate | reflexivity].
Defined.

(** X8: a stored text that parses, but to [null] or [undefined], is removed
    from local storage without a request, an error or a console entry; the
    setters before the failing read of [userData.id] have run all the same,
    so the panel with the toggle has left its form and shows the dashboard
    with no user, while the referral-only variant stays on its form. *)
Theorem nullish_session_is_removed c p storage text u :
  storage !! "adminUser" = Some text →
  text ≠ "" →
  JSON_parse p text = Some u →
  nullish u = true →
  let out := run p (onMount_of c) (fresh storage) in
  localStorage out.2 = delete "adminUser" storage
  ∧ user (view out.2) = u
  ∧ sent out.2 = []
  ∧ console out.2 = []
  ∧ error_shown (view out.2) = false
  ∧ match c with
    | AdminPanel => Admin.render (view out.2) = Admin.Dashboard
    | ReferralPanel => Referral.render (view out.2) = Referral.AccessForm
    end.
Proof.
  intros Hget Hne Hparse Hn. cbn zeta.
  rewrite (run_onMount_parsed c p (fresh storage) text u Hget Hne Hparse), Hn.
  destruct c; cbn; repeat split.
  unfold Referral.render. cbn. by destruct u.
Qed.

Lemma nullish_session_witness :
  let p := scripted [Null] [] in
  let out := run p (onMount_of AdminPanel) (fresh {["adminUser" := "null"]}) in
  localStorage out.2 = delete "adminUser" {["adminUser" := "null"]}
  ∧ user (view out.2) = Null
  ∧ sent out.2 = []
  ∧ Admin.render (view out.2) = Admin.Dashboard.
Proof.
  intros p out.
  destruct (nullish_session_is_removed AdminPanel p {["adminUser" := "null"]} "null" Null)
    as (Hs & Hu & Hn & _ & _ & Hr);
    [reflexivity | discriminate | reflexivity | reflexivity |].
  exact (conj Hs (conj Hu (conj Hn Hr))).
Defined.

(** X9: which stored sessions the mount effect keeps.  With no entry the
    effect does nothing.  An entry is still there afterwards exactly when it
    is the empty string or parses to a value other than [null] and
    [undefined]; and a request is issued exactly when it is not empty and
    parses to such a value. *)
Theorem mount_keeps_exactly_usable_sessions c p storage :
  let out := run p (onMount_of c) (fresh storage) in
  (storage !! "adminUser" = None → out.2 = fresh storage)
  ∧ (∀ text, storage !! "adminUser" = Some text →
       let usable := ∃ u, JSON_parse p text = Some u ∧ nullish u = false in
       (localStorage out.2 !! "adminUser" = Some text ↔ text = "" ∨ usable)
       ∧ (sent out.2 ≠ [] ↔ text ≠ "" ∧ usable)).
Proof.
  cbn zeta. split.
  - intros Hnone. by rewrite run_onMount_absent by (by left).
  - intros text Hget. destruct (decide (text = "")) as [->|Hne].
    + rewrite run_onMount_absent by (by right). cbn. split; split; try tauto.
      all: try (intros _; exact Hget).
      all: try (by intros [? _]).
    + destruct (JSON_parse p text) as [u|] eqn:Hparse.
      * rewrite (run_onMount_parsed c p (fresh storage) text u Hget Hne Hparse).
        destruct (nullish u) eqn:Hn.
        -- cbn. split; split.
           ++ destruct c; cbn; by rewrite lookup_delete_eq.
           ++ intros [?|(u' & Hu' & Hn')]; [done|]. congruence.
           ++ by destruct c.
           ++ intros [_ (u' & Hu' & Hn')]. congruence.
        -- cbn [snd].
           match goal with
           | |- context [run p (fetchReferralData ?i) ?W] =>
               destruct (fetchReferralData_frame p W i) as (_ & -> & -> & _)
           end.
           split; split.
           ++ intros _. right. by exists u.
           ++ intros _. by destruct c.
           ++ intros _. split; [done|]. by exists u.
           ++ intros _. by destruct (sent (restored c u (fresh storage))).
      * destruct (run_onMount_malformed p (fresh storage) text Hget) as [Ha Hr];
          [by destruct text|done|].
        assert (run p (onMount_of c) (fresh storage)
                = (inr tt, apply (removeItem "adminUser") (fresh storage))) as ->
          by (by destruct c).
        cbn. split; split.
        -- by rewrite lookup_delete_eq.
        -- intros [?|(u' & Hu' & _)]; [done|discriminate].
        -- done.
        -- intros [_ (u' & Hu' & _)]. discriminate.
Qed.

Lemma mount_keeps_witness :
  let u := Obj [("id", Str "u1")] in
  let p := scripted [u] [] in
  let out := run p (onMount_of ReferralPanel) (fresh {["adminUser" := print u]}) in
  localStorage out.2 !! "adminUser" = Some (print u)
  ∧ sent out.2 ≠ [].
Proof.
  intros u p out.
  destruct (mount_keeps_exactly_usable_sessions ReferralPanel p
              {["adminUser" := print u]}) as [_ H].
  destruct (H (print u) eq_refl) as [Hkeep Hsent].
  split.
  - apply Hkeep. right. exists u. split; reflexivity.
  - apply Hsent. split; [discriminate|]. exists u. split; reflexivity.
Defined.

(** ** Between events *)

Lemma advance_spares p bad (I : World → Prop) (t : task unit) w :
  (∀ a w', bad a = false → I w' → I (apply a w')) →
  (∀ r w', I w' → I (record_request r w')) →
  spares bad t → I w →
  I (advance p t w).1
  ∧ Forall (fun s => ∀ o, spares bad (resume s o)) (advance p t w).2.
Proof.
  intros Ha Hr. revert w.
  induction t as [| |a t IH|key k IH|text k IH|v k IH|r k IH|child k IHc IHk]
    using task_unit_ind; intros w Ht Hw; cbn in *.
  - by split.
  - by split.
  - destruct Ht. auto.
  - apply IH; auto.
  - apply IH; auto.
  - apply IH; auto.
  - split; [auto|]. constructor; [exact Ht|constructor].
  - destruct Ht as [Hc Hk].
    destruct (IHc w Hc Hw) as [Hw1 Hs1].
    destruct (advance p child w) as [w1 s1]. cbn in *.
    destruct (IHk w1 Hk Hw1) as [Hw2 Hs2].
    destruct (advance p k w1) as [w2 s2]. cbn in *.
    split; [done|]. by apply Forall_app.
Qed.

Lemma advance_synchronous p (t : task unit) w :
  synchronous t → (advance p t w).2 = [].
Proof.
  revert w. induction t using task_unit_ind; intros w Ht; cbn in *; auto; done.
Qed.

(** The handlers that can be parked: those of the form, of the generate
    button and of the mount effect. *)
Lemma in_flight_spares c p bad b :
  (∀ h v, spares bad (submit h v)) →
  (∀ v, spares bad (generateReferralLink v)) →
  spares bad (onMount_of c) →
  reachable c p b →
  Forall (fun x : origin * suspended => ∀ o, spares bad (resume x.2 o)) (in_flight b).
Proof.
  intros Hs Hg Hm.
  assert (∀ from t b0,
            Forall (fun x : origin * suspended => ∀ o, spares bad (resume x.2 o))
              (in_flight b0) →
            spares bad t ∨ synchronous t →
            Forall (fun x : origin * suspended => ∀ o, spares bad (resume x.2 o))
              (in_flight (launch p from t b0))) as Hlaunch.
  { intros from t b0 Hb0 Ht. unfold launch.
    destruct Ht as [Ht|Ht].
    - destruct (advance_spares p bad (fun _ => True) t (page b0)) as [_ Hp]; try done.
      destruct (advance p t (page b0)) as [w parked]. cbn in *.
      apply Forall_app. split; [done|]. by apply Forall_fmap.
    - pose proof (advance_synchronous p t (page b0) Ht) as Hp.
      destruct (advance p t (page b0)) as [w parked]. cbn in *. subst.
      by rewrite app_nil_r. }
  induction 1 as [storage|b e b' Hb IH Hstep].
  - apply Hlaunch; [constructor|by left].
  - destruct e; unfold step in Hstep; cbv zeta in Hstep.
    + destruct (_ && _); [|done]. injection Hstep as <-.
      apply Hlaunch; [done|left].
      destruct c; unfold onSubmit_of; [|exact (Hs Access _)].
      unfold Admin.onSubmit.
      destruct (showLogin _); [exact (Hs Login _)|exact (Hs Register _)].
    + destruct (_ && _); [|done]. injection Hstep as <-. apply Hlaunch; auto.
    + destruct (negb _); [|done]. injection Hstep as <-.
      apply Hlaunch; [done|right]. by destruct c.
    + destruct (form_on_screen _ _); [|done]. injection Hstep as <-.
      apply Hlaunch; [done|by right].
    + destruct (_ && _); [|done]. injection Hstep as <-.
      apply Hlaunch; [done|by right].
    + destruct c; [|done]. destruct (_ && _); [|done]. injection Hstep as <-.
      apply Hlaunch; [done|by right].
    + destruct c; [|done]. destruct (_ && _); [|done]. injection Hstep as <-.
      apply Hlaunch; [done|by right].
    + destruct (in_flight b !! n) as [[from s]|] eqn:Hn; [|done].
      injection Hstep as <-.
      apply Hlaunch; cbn.
      * rewrite delete_take_drop. apply Forall_app. split.
        -- by apply Forall_take.
        -- by apply Forall_drop.
      * left. apply (Forall_lookup_1 _ _ _ _ IH Hn).
Qed.

Lemma handlers_spare_formData :
  (∀ h v, spares writes_formData (submit h v))
  ∧ (∀ v, spares writes_formData (generateReferralLink v))
  ∧ (∀ c, spares writes_formData (onMount_of c)).
Proof.
  repeat split.
  - intros [] v; unfold submit, Admin.handleLogin, Admin.handleRegister,
      Referral.handleSubmit; sparing.
  - intros v. unfold generateReferralLink. sparing.
  - intros []; unfold onMount_of, Admin.onMount, Referral.onMount; sparing.
Qed.

(** X10: what the user has typed is never overwritten by a response.  In
    every state the component can reach, the settling of any request in
    flight, with any outcome, leaves the form fields as they are. *)
Theorem settling_keeps_typed_fields c p b n o b' :
  reachable c p b →
  step c p (Settle n o) b = Some b' →
  formData (view (page b')) = formData (view (page b)).
Proof.
  intros Hb Hstep.
  destruct handlers_spare_formData as (Hs & Hg & Hm).
  pose proof (in_flight_spares c p writes_formData b Hs Hg (Hm c) Hb) as Hall.
  unfold step in Hstep.
  destruct (in_flight b !! n) as [[from s]|] eqn:Hn; [|done].
  injection Hstep as <-. unfold launch. cbn [page].
  pose proof (Forall_lookup_1 _ _ _ _ Hall Hn o) as Hk. cbn in Hk.
  destruct (advance_spares p writes_formData
              (fun w' => formData (view w') = formData (view (page b)))
              (resume s o) (page b)) as [Hw _]; try done.
  { by intros [] w'. }
  by destruct (advance p (resume s o) (page b)).
Qed.

Lemma settling_keeps_typed_fields_witness :
  let p := scripted [] [] in
  let b0 := boot ReferralPanel p ∅ in
  let b1 := launch p Other (perform (setFormData (mkFormData "ada@example.org" ""))) b0 in
  let b2 := launch p Submitted (onSubmit_of ReferralPanel (view (page b1))) b1 in
  let b3 := launch p Other (perform (setFormData (mkFormData "bob@example.org" ""))) b2 in
  match step ReferralPanel p (Settle 0 (Rejected None)) b3 with
  | Some b' => formData (view (page b')) = mkFormData "bob@example.org" ""
  | None => False
  end.
Proof.
  intros p b0 b1 b2 b3.
  assert (reachable ReferralPanel p b3) as Hb3.
  { apply (reach_step _ _ b2 (EditEmail "bob@example.org")); [|reflexivity].
    apply (reach_step _ _ b1 SubmitForm); [|reflexivity].
    apply (reach_step _ _ b0 (EditEmail "ada@example.org")); [|reflexivity].
    apply reach_boot. }
  destruct (step ReferralPanel p (Settle 0 (Rejected None)) b3) as [b'|] eqn:Hstep.
  - exact (settling_keeps_typed_fields ReferralPanel p b3 0 (Rejected None) b' Hb3 Hstep).
  - discriminate Hstep.
Defined.

Lemma advance_fetchReferralData p userId w :
  ∃ k, advance p (fetchReferralData userId) w
       = (record_request (summary_request userId) w,
          [mkSuspended (summary_request userId) k])
       ∧ (∀ d w', truthy (get_opt d "success") = true →
            advance p (k (Resolved d)) w'
            = (apply (setReferralData (get_opt d "data")) w', []))
       ∧ (∀ d w', truthy (get_opt d "success") = false →
            view (advance p (k (Resolved d)) w').1 = view w'
            ∧ localStorage (advance p (k (Resolved d)) w').1 = localStorage w'
            ∧ sent (advance p (k (Resolved d)) w').1 = sent w'
            ∧ (advance p (k (Resolved d)) w').2 = [])
       ∧ (∀ r w',
            advance p (k (Rejected r)) w'
            = (apply (console_error "Failed to fetch referral data:" (AxiosError r)) w',
               [])).
Proof.
  unfold fetchReferralData. eexists. split; [reflexivity|]. split; [|split].
  - intros d w' Hs. cbn.
    rewrite (get_defined d "success" (truthy_get_opt _ _ Hs)). cbn. rewrite Hs. cbn.
    by rewrite (get_defined d "data" (truthy_get_opt _ _ Hs)).
  - intros d w' Hs. cbn. destruct (nullish d) eqn:Hn.
    + rewrite (get_nullish d "success" Hn). cbn. by destruct (view w').
    + rewrite (get_defined d "success" Hn). cbn. by rewrite Hs.
  - done.
Qed.

(** X11: logout cancels nothing.  With the dashboard on screen and a summary
    fetch in flight, a click on Logout leaves that fetch in flight; when it
    then resolves with a truthy [success], its [data] becomes the referral
    data of the logged-out view, whose user is [null]. *)
Theorem logout_does_not_cancel_fetch c p b n from s userId w0 d :
  form_on_screen c (view (page b)) = false →
  (advance p (fetchReferralData userId) w0).2 = [s] →
  in_flight b !! n = Some (from, s) →
  truthy (get_opt d "success") = true →
  ∃ b1 b2,
    step c p ClickLogout b = Some b1
    ∧ in_flight b1 = in_flight b
    ∧ user (view (page b1)) = Null
    ∧ referralData (view (page b1)) = Null
    ∧ step c p (Settle n (Resolved d)) b1 = Some b2
    ∧ user (view (page b2)) = Null
    ∧ referralData (view (page b2)) = get_opt d "data"
    ∧ localStorage (page b2) !! "adminUser" = None.
Proof.
  intros Hform Hs Hn Hd.
  destruct (advance_fetchReferralData p userId w0) as (k & Hadv & Hyes & _).
  rewrite Hadv in Hs. injection Hs as <-.
  eexists _, _. unfold step. cbv zeta. rewrite Hform. cbn [negb].
  split; [reflexivity|].
  assert (in_flight (launch p Other (handleLogout_of c) b) = in_flight b) as Hkeep.
  { destruct c; cbn; by rewrite app_nil_r. }
  split; [exact Hkeep|].
  split; [by destruct c|]. split; [by destruct c|].
  rewrite Hkeep, Hn. split; [reflexivity|].
  unfold launch. cbn [resume page snd]. rewrite (Hyes d _ Hd).
  destruct c; cbn; repeat split; apply lookup_delete_eq.
Qed.

Lemma logout_does_not_cancel_witness :
  let u := Obj [("id", Str "u1")] in
  let summary := Obj [("referralCode", Str "ADA1")] in
  let p := scripted [u] [] in
  let b := boot AdminPanel p {["adminUser" := print u]} in
  ∃ b1 b2,
    step AdminPanel p ClickLogout b = Some b1
    ∧ step AdminPanel p
        (Settle 0 (Resolved (Obj [("success", Bool true); ("data", summary)]))) b1
      = Some b2
    ∧ user (view (page b2)) = Null
    ∧ referralData (view (page b2)) = summary.
Proof.
  intros u summary p b.
  pose (s := hd (mkSuspended (summary_request Null) (fun _ => Ret tt))
               (advance p (fetchReferralData (Str "u1")) (fresh ∅)).2).
  destruct (logout_does_not_cancel_fetch AdminPanel p b 0 Mounted s
              (Str "u1") (fresh ∅)
              (Obj [("success", Bool true); ("data", summary)]))
    as (b1 & b2 & H1 & _ & _ & _ & H2 & Hu & Hr & _);
    [reflexivity | reflexivity | reflexivity | reflexivity |].
  exists b1, b2. exact (conj H1 (conj H2 (conj Hu Hr))).
Defined.

Lemma handlers_spare_opening :
  (∀ h v, spares opens_form (submit h v))
  ∧ (∀ v, spares opens_form (generateReferralLink v))
  ∧ (∀ c, spares opens_form (onMount_of c)).
Proof.
  repeat split.
  - intros [] v; unfold submit, Admin.handleLogin, Admin.handleRegister,
      Referral.handleSubmit; sparing.
  - intros v. unfold generateReferralLink. sparing.
  - intros []; unfold onMount_of, Admin.onMount, Referral.onMount; sparing.
Qed.

Lemma reachable_exclusive c p b :
  reachable c p b →
  showLogin (view (page b)) && showRegister (view (page b)) = false.
Proof.
  destruct handlers_spare_opening as (Hs & Hg & Hm).
  set (I := fun w : World => showLogin (view w) && showRegister (view w) = false).
  assert (∀ a w', opens_form a = false → I w' → I (apply a w')) as Ha.
  { subst I. intros [| | | |[]|[]| | | |] w' Hbad Hw'; cbn in *; try done.
    apply andb_false_r. }
  assert (∀ r w', I w' → I (record_request r w')) as Hr by done.
  assert (∀ from t b0, spares opens_form t → I (page b0) →
            I (page (launch p from t b0))) as Hlaunch.
  { intros from t b0 Ht Hb0. unfold launch.
    destruct (advance_spares p opens_form I t (page b0) Ha Hr Ht Hb0) as [Hw _].
    by destruct (advance p t (page b0)). }
  intros Hb. change (I (page b)).
  induction Hb as [storage|b e b' Hb IH Hstep].
  - apply Hlaunch; [apply Hm|done].
  - pose proof (in_flight_spares c p opens_form b Hs Hg (Hm c) Hb) as Hall.
    destruct e; unfold step in Hstep; cbv zeta in Hstep.
    + destruct (_ && _); [|done]. injection Hstep as <-.
      apply Hlaunch; [|done].
      destruct c; unfold onSubmit_of; [|exact (Hs Access _)].
      unfold Admin.onSubmit.
      destruct (showLogin _); [exact (Hs Login _)|exact (Hs Register _)].
    + destruct (_ && _); [|done]. injection Hstep as <-. by apply Hlaunch.
    + destruct (negb _); [|done]. injection Hstep as <-.
      destruct c; [done|]. by apply Hlaunch.
    + destruct (form_on_screen _ _); [|done]. injection Hstep as <-.
      by apply Hlaunch.
    + destruct (_ && _); [|done]. injection Hstep as <-. by apply Hlaunch.
    + destruct c; [|done]. destruct (_ && _); [|done]. by injection Hstep as <-.
    + destruct c; [|done]. destruct (_ && _); [|done]. by injection Hstep as <-.
    + destruct (in_flight b !! n) as [[from s]|] eqn:Hn; [|done].
      injection Hstep as <-.
      apply Hlaunch; [|done]. apply (Forall_lookup_1 _ _ _ _ Hall Hn).
Qed.

(** X12: the login form and the register form are never both selected.  In
    every state either variant can reach, [showLogin] and [showRegister] are
    not both [true], so the heading, the name field and the handler chosen on
    submit agree on one form. *)
Theorem form_modes_are_exclusive c p b :
  reachable c p b →
  showLogin (view (page b)) && showRegister (view (page b)) = false.
Proof. apply reachable_exclusive. Qed.

Lemma form_modes_witness :
  let p := scripted [] [] in
  let b0 := boot AdminPanel p ∅ in
  let b1 := launch p Other
              (perform (setShowRegister true);;
               perform (setShowLogin false);;
               perform (setError (Str ""))) b0 in
  showLogin (view (page b1)) && showRegister (view (page b1)) = false
  ∧ Admin.render (view (page b1)) = Admin.RegisterForm.
Proof.
  intros p b0 b1. split; [|reflexivity].
  apply (form_modes_are_exclusive AdminPanel p b1).
  apply (reach_step _ _ b0 ClickRegisterHere); [apply reach_boot|reflexivity].
Defined.

Lemma boot_with_session c p storage text u :
  storage !! "adminUser" = Some text →
  text ≠ "" →
  JSON_parse p text = Some u →
  nullish u = false →
  ∃ k, boot c p storage
       = mkBrowser (record_request (summary_request (get_opt u "id"))
                      (restored c u (fresh storage)))
           [(Mounted, mkSuspended (summary_request (get_opt u "id")) k)]
       ∧ (∀ d w', truthy (get_opt d "success") = true →
            advance p (k (Resolved d)) w'
            = (apply (setReferralData (get_opt d "data")) w', []))
       ∧ (∀ d w', truthy (get_opt d "success") = false →
            view (advance p (k (Resolved d)) w').1 = view w'
            ∧ localStorage (advance p (k (Resolved d)) w').1 = localStorage w'
            ∧ sent (advance p (k (Resolved d)) w').1 = sent w'
            ∧ (advance p (k (Resolved d)) w').2 = [])
       ∧ (∀ r w',
            advance p (k (Rejected r)) w'
            = (apply (console_error "Failed to fetch referral data:" (AxiosError r)) w',
               [])).
Proof.
  intros Hget Hne Hparse Hn.
  destruct (advance_fetchReferralData p (get_opt u "id") (restored c u (fresh storage)))
    as (k & Hadv & Hyes & Hno & Hrej).
  exists k. split; [|by split].
  unfold boot, launch.
  destruct c; unfold onMount_of, Admin.onMount, Referral.onMount;
    cbn [advance page in_flight localStorage fresh bind mbind task_bind];
    rewrite Hget; (destruct text; [done|]); cbn; rewrite Hparse; cbn;
    rewrite (get_defined _ "id" Hn); cbn;
    cbn in Hadv; by rewrite Hadv.
Qed.

(** X13: there is no retry.  When the summary fetch of the mount effect is
    rejected, or answered without a truthy [success], nothing is in flight
    afterwards and no further request has been issued; the referral data is
    still [null], so the dashboard goes on printing ["Loading..."] for the
    code and [0] for the three figures, with the generate button enabled. *)
Theorem failed_mount_fetch_is_not_retried c p storage text u o :
  storage !! "adminUser" = Some text →
  text ≠ "" →
  JSON_parse p text = Some u →
  nullish u = false →
  (∀ d, o = Resolved d → truthy (get_opt d "success") = false) →
  ∃ b',
    step c p (Settle 0 o) (boot c p storage) = Some b'
    ∧ in_flight b' = []
    ∧ sent (page b') = [summary_request (get_opt u "id")]
    ∧ referralData (view (page b')) = Null
    ∧ code_shown (view (page b')) = Str "Loading..."
    ∧ (∀ key, stat_shown (view (page b')) key = Num 0)
    ∧ button_disabled (view (page b')) = false
    ∧ localStorage (page b') = storage.
Proof.
  intros Hget Hne Hparse Hn Ho.
  destruct (boot_with_session c p storage text u Hget Hne Hparse Hn)
    as (k & -> & _ & Hno & Hrej).
  eexists. unfold step. cbv zeta. cbn [in_flight lookup list_lookup].
  split; [reflexivity|].
  unfold launch. cbn [resume page in_flight snd delete list_delete].
  unfold code_shown, stat_shown, button_disabled.
  destruct o as [d|r].
  - destruct (Hno d (record_request (summary_request (get_opt u "id"))
                       (restored c u (fresh storage))) (Ho d eq_refl))
      as (Hv & Hl & Hs & Hp).
    destruct (advance p (k (Resolved d)) _) as [w1 parked].
    cbn in Hv, Hl, Hs, Hp. subst parked. cbn [page in_flight app map].
    rewrite Hv, Hl, Hs. by destruct c.
  - rewrite Hrej. by destruct c.
Qed.

Lemma failed_mount_fetch_witness :
  let u := Obj [("id", Str "u1")] in
  let p := scripted [u] [] in
  ∃ b',
    step AdminPanel p (Settle 0 (Rejected None))
      (boot AdminPanel p {["adminUser" := print u]}) = Some b'
    ∧ in_flight b' = []
    ∧ code_shown (view (page b')) = Str "Loading...".
Proof.
  intros u p.
  destruct (failed_mount_fetch_is_not_retried AdminPanel p {["adminUser" := print u]}
              (print u) u (Rejected None))
    as (b' & H1 & H2 & _ & _ & H3 & _);
    [reflexivity | discriminate | reflexivity | reflexivity | discriminate |].
  exists b'. exact (conj H1 (conj H2 H3)).
Defined.


(** ** What is sent and what is copied *)

Lemma advance_submit h p v w :
  ∃ k, advance p (submit h v) w
       = (record_request (credential_request h v)
            (apply (setError (Str "")) (apply (setLoading true) w)),
          [mkSuspended (credential_request h v) k]).
Proof. destruct h; eexists; reflexivity. Qed.

(** X14: the request a submission sends matches the form on screen.  In
    every state the panel with the toggle can reach, submitting issues
    exactly one request: the registration request with both fields when the
    name field is shown ([showRegister]), the login request with the email
    alone otherwise; the referral-only form always sends both fields.  The
    fields are those of the render in which the form was submitted, the
    loading flag is up and the error slot is empty while the request is in
    flight. *)
Theorem submitted_request_matches_the_form c p b b' :
  reachable c p b →
  step c p SubmitForm b = Some b' →
  let v := view (page b) in
  let h := match c with
           | AdminPanel => if showRegister v then Register else Login
           | ReferralPanel => Access
           end in
  sent (page b') = sent (page b) ++ [credential_request h v]
  ∧ loading (view (page b')) = true
  ∧ error (view (page b')) = Str ""
  ∧ length (in_flight b') = S (length (in_flight b)).
Proof.
  intros Hb Hstep. cbn zeta.
  pose proof (reachable_exclusive c p b Hb) as Hex.
  unfold step in Hstep. cbv zeta in Hstep.
  destruct (form_on_screen c (view (page b))) eqn:Hform; [|done].
  destruct (negb _); [|done]. cbn in Hstep. injection Hstep as <-.
  assert (onSubmit_of c (view (page b))
          = submit (match c with
                    | AdminPanel =>
                        if showRegister (view (page b)) then Register else Login
                    | ReferralPanel => Access
                    end) (view (page b))) as ->.
  { destruct c; [|done]. unfold onSubmit_of, Admin.onSubmit.
    unfold form_on_screen, Admin.render in Hform.
    destruct (showLogin (view (page b))), (showRegister (view (page b))); done. }
  unfold launch.
  match goal with
  | |- context [advance p (submit ?h ?v) ?w] =>
      destruct (advance_submit h p v w) as [k ->]
  end.
  cbn. rewrite length_app. cbn. repeat split. lia.
Qed.

Lemma submitted_request_witness :
  let p := scripted [] [] in
  let b0 := boot AdminPanel p ∅ in
  let b1 := launch p Other (perform (setFormData (mkFormData "ada@example.org" ""))) b0 in
  let b2 := launch p Submitted (onSubmit_of AdminPanel (view (page b1))) b1 in
  sent (page b2)
  = [mkRequest POST (API_BASE_URL +:+ "/auth/admin/login")
       (Obj [("email", Str "ada@example.org")]) []]
  ∧ loading (view (page b2)) = true.
Proof.
  intros p b0 b1 b2.
  assert (reachable AdminPanel p b1) as Hb1.
  { apply (reach_step _ _ b0 (EditEmail "ada@example.org")); [|reflexivity].
    apply reach_boot. }
  destruct (submitted_request_matches_the_form AdminPanel p b1 b2 Hb1 eq_refl)
    as (Hs & Hl & _).
  exact (conj Hs Hl).
Defined.

(** X15: the Copy buttons and what is on screen.  When the referral code is
    a non-empty string, the button beside it copies exactly the text shown,
    and so does the button beside the analyst link.  While there is no code,
    the screen shows ["Loading..."] but the buttons copy the empty string and
    the bare link prefix.  In both cases the dialog ["Copied to clipboard!"]
    is shown, also when the write is refused and the clipboard keeps its old
    content; where [navigator.clipboard] is missing the call throws before
    the dialog. *)
Theorem copy_buttons_and_displayed_code v desk :
  let prefix := "https://grow100x.ai/analyst?reffer=" in
  let told := alerts desk ++ ["Copied to clipboard!"] in
  (∀ s, get_opt (referralData v) "referralCode" = Str s → s ≠ "" →
     child_text (code_shown v) = Some s
     ∧ copyToClipboard (Some true) (code_copied v) desk = inr (mkDesk (Some s) told)
     ∧ analyst_link_shown v = Some (prefix +:+ s)
     ∧ copyToClipboard (Some true) (analyst_link_copied v) desk
       = inr (mkDesk (Some (prefix +:+ s)) told))
  ∧ (truthy (get_opt (referralData v) "referralCode") = false →
     child_text (code_shown v) = Some "Loading..."
     ∧ copyToClipboard (Some true) (code_copied v) desk = inr (mkDesk (Some "") told)
     ∧ analyst_link_shown v = Some (prefix +:+ "Loading...")
     ∧ copyToClipboard (Some true) (analyst_link_copied v) desk
       = inr (mkDesk (Some prefix) told))
  ∧ (∀ text, copyToClipboard (Some false) text desk = inr (mkDesk (clipboard desk) told)
             ∧ copyToClipboard None text desk = inl TypeError).
Proof.
  cbn zeta. split; [|split].
  - intros s Hcode Hne.
    unfold analyst_link_shown, analyst_link_copied, code_shown, code_copied, or_else.
    rewrite Hcode. destruct s; [done|]. by cbn.
  - intros Hfalsy.
    unfold analyst_link_shown, analyst_link_copied, code_shown, code_copied, or_else.
    rewrite Hfalsy. by cbn.
  - done.
Qed.

Lemma copy_buttons_witness :
  let v := mkView (Obj [("id", Str "u1")]) Null false (Str "") false false
             (mkFormData "" "") in
  child_text (code_shown v) = Some "Loading..."
  ∧ copyToClipboard (Some true) (code_copied v) (mkDesk None [])
    = inr (mkDesk (Some "") ["Copied to clipboard!"]).
Proof.
  intros v.
  destruct (copy_buttons_and_displayed_code v (mkDesk None [])) as (_ & H & _).
  destruct (H eq_refl) as (H1 & H2 & _).
  exact (conj H1 H2).
Defined.

Lemma handlers_spare_session :
  (∀ userId, spares writes_session (fetchReferralData userId))
  ∧ (∀ v, spares writes_session (generateReferralLink v)).
Proof.
  split.
  - intros userId. sparing.
  - intros v. unfold generateReferralLink. sparing.
Qed.

(** X16: the summary fetch and code generation never change who is signed
    in or which screen is up: whatever the server answers, the user slot, the
    two form flags, the form fields and local storage are after them what
    they were before. *)
Theorem fetch_and_generation_keep_the_session p w :
  let same (w' : World) :=
    user (view w') = user (view w)
    ∧ showLogin (view w') = showLogin (view w)
    ∧ showRegister (view w') = showRegister (view w)
    ∧ formData (view w') = formData (view w)
    ∧ localStorage w' = localStorage w in
  (∀ userId, same (run p (fetchReferralData userId) w).2)
  ∧ (∀ v, same (run p (generateReferralLink v) w).2).
Proof.
  cbn zeta. destruct handlers_spare_session as (Hf & Hg).
  assert (∀ A (t : task A), spares writes_session t →
            user (view (run p t w).2) = user (view w)
            ∧ showLogin (view (run p t w).2) = showLogin (view w)
            ∧ showRegister (view (run p t w).2) = showRegister (view w)
            ∧ formData (view (run p t w).2) = formData (view w)
            ∧ localStorage (run p t w).2 = localStorage w) as Hsame.
  { intros A t Ht.
    apply (run_spares p writes_session
             (fun w' => user (view w') = user (view w)
                        ∧ showLogin (view w') = showLogin (view w)
                        ∧ showRegister (view w') = showRegister (view w)
                        ∧ formData (view w') = formData (view w)
                        ∧ localStorage w' = localStorage w)); try done.
    by intros [] w'. }
  split; intros; by apply Hsame.
Qed.

(** ** Responses that arrive in between *)

Lemma advance_submit_resolved h p v w :
  ∃ k, advance p (submit h v) w
       = (record_request (credential_request h v)
            (apply (setError (Str "")) (apply (setLoading true) w)),
          [mkSuspended (credential_request h v) k])
       ∧ ∀ d w',
           truthy (get_opt d "success") = true →
           nullish (get_opt d "user") = false →
           ∃ k', advance p (k (Resolved d)) w'
                 = (record_request
                      (summary_request (get_opt (get_opt d "user") "id"))
                      (signed_in h (get_opt d "user")
                         (JSON_stringify p (get_opt d "user")) w'),
                    [mkSuspended
                       (summary_request (get_opt (get_opt d "user") "id")) k']).
Proof.
  destruct h; eexists; (split; [reflexivity|]); intros d w' Hs Hn;
    pose proof (truthy_get_opt _ _ Hs) as Hd; cbn;
    rewrite (get_defined d "success" Hd); cbn; rewrite Hs; cbn;
    rewrite (get_defined d "user" Hd); cbn;
    rewrite (get_defined _ "id" Hn); cbn;
    unfold fetchReferralData; cbn; eexists; reflexivity.
Qed.

(** X17: the dashboard comes up before the summary does.  When the
    credential request of a parked submission resolves with a truthy
    [success] and a user, the user is set and stored and the summary fetch is
    issued in that same step; the handler is parked again, now at the fetch;
    the referral data and the loading flag are as before.  The panel with
    the toggle shows the dashboard from here on, the referral-only variant if
    the user is truthy. *)
Theorem dashboard_appears_before_summary h c p b n from s v w0 d :
  (advance p (submit h v) w0).2 = [s] →
  in_flight b !! n = Some (from, s) →
  truthy (get_opt d "success") = true →
  nullish (get_opt d "user") = false →
  let u := get_opt d "user" in
  ∃ b' s',
    step c p (Settle n (Resolved d)) b = Some b'
    ∧ in_flight b' = delete n (in_flight b) ++ [(from, s')]
    ∧ waits_for s' = summary_request (get_opt u "id")
    ∧ sent (page b') = sent (page b) ++ [summary_request (get_opt u "id")]
    ∧ user (view (page b')) = u
    ∧ localStorage (page b') !! "adminUser" = Some (JSON_stringify p u)
    ∧ referralData (view (page b')) = referralData (view (page b))
    ∧ loading (view (page b')) = loading (view (page b))
    ∧ match h with
      | Login | Register => Admin.render (view (page b')) = Admin.Dashboard
      | Access =>
          Referral.render (view (page b'))
          = if truthy u then Referral.Dashboard else Referral.AccessForm
      end.
Proof.
  intros Hs Hn Hd Hu. cbn zeta.
  destruct (advance_submit_resolved h p v w0) as (k & Hadv & Hk).
  rewrite Hadv in Hs. injection Hs as <-.
  destruct (Hk d (page b) Hd Hu) as [k' Hadv'].
  eexists _, _. unfold step. rewrite Hn. split; [reflexivity|].
  unfold launch. cbn [resume page in_flight]. rewrite Hadv'.
  cbn [page in_flight map waits_for].
  split; [reflexivity|]. split; [reflexivity|].
  destruct h; cbn; repeat split; try apply lookup_insert_eq.
  unfold Referral.render. cbn. by destruct (truthy (get_opt d "user")).
Qed.

Lemma dashboard_appears_witness :
  let u := Obj [("id", Str "u1")] in
  let p := scripted [] [] in
  let b0 := boot AdminPanel p ∅ in
  let b1 := launch p Submitted (onSubmit_of AdminPanel (view (page b0))) b0 in
  ∃ b',
    step AdminPanel p
      (Settle 0 (Resolved (Obj [("success", Bool true); ("user", u)]))) b1 = Some b'
    ∧ user (view (page b')) = u
    ∧ sent (page b') = sent (page b1) ++ [summary_request (Str "u1")]
    ∧ Admin.render (view (page b')) = Admin.Dashboard.
Proof.
  intros u p b0 b1.
  pose (s := hd (mkSuspended (summary_request Null) (fun _ => Ret tt))
               (advance p (submit Login (view (page b0))) (fresh ∅)).2).
  destruct (dashboard_appears_before_summary Login AdminPanel p b1 0 Submitted s
              (view (page b0)) (fresh ∅)
              (Obj [("success", Bool true); ("user", u)]))
    as (b' & s' & H1 & _ & _ & H2 & H3 & _ & _ & _ & H4);
    [reflexivity | reflexivity | reflexivity | reflexivity |].
  exists b'. exact (conj H1 (conj H3 (conj H2 H4))).
Defined.

Lemma advance_generate p v w :
  truthy (user v) = true →
  ∃ k, advance p (generateReferralLink v) w
       = (record_request (code_request (get_opt (user v) "id"))
            (apply (setLoading true) w),
          [mkSuspended (code_request (get_opt (user v) "id")) k])
       ∧ ∀ d w', truthy (get_opt d "success") = true →
           ∃ k', advance p (k (Resolved d)) w'
                 = (record_request (summary_request (get_opt (user v) "id")) w',
                    [mkSuspended (summary_request (get_opt (user v) "id")) k'])
                 ∧ ∀ d' w'', truthy (get_opt d' "success") = true →
                     advance p (k' (Resolved d')) w''
                     = (apply (setLoading false)
                          (apply (setReferralData (get_opt d' "data")) w''), []).
Proof.
  intros Hu. unfold generateReferralLink. rewrite Hu. cbn.
  rewrite (get_defined _ "id" (truthy_not_nullish _ Hu)). cbn.
  eexists. split; [reflexivity|]. intros d w' Hs. cbn.
  rewrite (get_defined d "success" (truthy_get_opt _ _ Hs)). cbn. rewrite Hs. cbn.
  unfold fetchReferralData. cbn.
  eexists. split; [reflexivity|]. intros d' w'' Hs'. cbn.
  rewrite (get_defined d' "success" (truthy_get_opt _ _ Hs')). cbn. rewrite Hs'. cbn.
  by rewrite (get_defined d' "data" (truthy_get_opt _ _ Hs')).
Qed.

(** X18: of two summary fetches in flight, the one that settles last
    decides what is shown, not the one that was issued last.  A page that
    mounts with a stored session fetches the summary; if, before that fetch
    settles, the user generates a code and the re-fetch that follows resolves,
    and only then the first fetch resolves, the referral data ends up being
    the answer to the first, older request. *)
Theorem last_settled_summary_wins c p storage text u code older newer :
  storage !! "adminUser" = Some text →
  text ≠ "" →
  JSON_parse p text = Some u →
  truthy u = true →
  truthy (get_opt code "success") = true →
  truthy (get_opt older "success") = true →
  truthy (get_opt newer "success") = true →
  ∃ b1 b2 b3 b4,
    step c p ClickGenerate (boot c p storage) = Some b1
    ∧ step c p (Settle 1 (Resolved code)) b1 = Some b2
    ∧ sent (page b2) = [summary_request (get_opt u "id");
                        code_request (get_opt u "id");
                        summary_request (get_opt u "id")]
    ∧ step c p (Settle 1 (Resolved newer)) b2 = Some b3
    ∧ referralData (view (page b3)) = get_opt newer "data"
    ∧ step c p (Settle 0 (Resolved older)) b3 = Some b4
    ∧ referralData (view (page b4)) = get_opt older "data"
    ∧ in_flight b4 = [].
Proof.
  intros Hget Hne Hparse Hu Hcode Hold Hnew.
  destruct (boot_with_session c p storage text u Hget Hne Hparse
              (truthy_not_nullish _ Hu)) as (k0 & -> & Hyes0 & _).
  set (w0 := record_request (summary_request (get_opt u "id"))
               (restored c u (fresh storage))).
  assert (user (view w0) = u) as Huser by (by destruct c).
  assert (form_on_screen c (view w0) = false) as Hform.
  { destruct c; cbn; [done|]. unfold Referral.render. cbn. by rewrite Hu. }
  assert (loading (view w0) = false) as Hload by (by destruct c).
  assert (sent w0 = [summary_request (get_opt u "id")]) as Hsent by (by destruct c).
  destruct (advance_generate p (view w0) w0) as (kg & Hadv & Hkg);
    [by rewrite Huser|].
  rewrite Huser in Hadv, Hkg.
  set (w1 := record_request (code_request (get_opt u "id"))
               (apply (setLoading true) w0)) in *.
  destruct (Hkg code w1 Hcode) as (kr & Hadvr & Hkr).
  set (w2 := record_request (summary_request (get_opt u "id")) w1) in *.
  set (w3 := apply (setLoading false)
               (apply (setReferralData (get_opt newer "data")) w2)).
  set (s0 := mkSuspended (summary_request (get_opt u "id")) k0).
  exists (mkBrowser w1 [(Mounted, s0);
                        (Generated, mkSuspended (code_request (get_opt u "id")) kg)]).
  exists (mkBrowser w2 [(Mounted, s0);
                        (Generated, mkSuspended (summary_request (get_opt u "id")) kr)]).
  exists (mkBrowser w3 [(Mounted, s0)]).
  exists (mkBrowser (apply (setReferralData (get_opt older "data")) w3) []).
  split.
  { unfold step. cbv zeta. cbn [page]. unfold button_disabled.
    rewrite Hform, Hload. cbn [negb andb]. unfold launch. cbn [page in_flight].
    by rewrite Hadv. }
  split.
  { unfold step. cbn [in_flight lookup list_lookup]. unfold launch.
    cbn [resume page in_flight delete list_delete snd]. by rewrite Hadvr. }
  split.
  { subst w2 w1. unfold record_request, apply, on_view. cbn [page sent].
    by rewrite Hsent. }
  split.
  { unfold step. cbn [in_flight lookup list_lookup]. unfold launch.
    cbn [resume page in_flight delete list_delete snd]. by rewrite (Hkr newer w2 Hnew). }
  split; [done|]. split; [|done].
  unfold step. cbn [in_flight lookup list_lookup]. unfold launch.
  cbn [resume page in_flight delete list_delete snd]. subst s0. cbn [resume].
  by rewrite (Hyes0 older w3 Hold).
Qed.

Lemma last_settled_summary_witness :
  let u := Obj [("id", Str "u1")] in
  let p := scripted [u] [] in
  let answer code := Resolved (Obj [("success", Bool true);
                                    ("data", Obj [("referralCode", Str code)])]) in
  ∃ b1 b2 b3 b4,
    step AdminPanel p ClickGenerate (boot AdminPanel p {["adminUser" := print u]})
    = Some b1
    ∧ step AdminPanel p (Settle 1 (Resolved (Obj [("success", Bool true)]))) b1 = Some b2
    ∧ step AdminPanel p (Settle 1 (answer "NEW")) b2 = Some b3
    ∧ step AdminPanel p (Settle 0 (answer "OLD")) b3 = Some b4
    ∧ code_shown (view (page b4)) = Str "OLD".
Proof.
  intros u p answer.
  destruct (last_settled_summary_wins AdminPanel p {["adminUser" := print u]}
              (print u) u (Obj [("success", Bool true)])
              (Obj [("success", Bool true);
                    ("data", Obj [("referralCode", Str "OLD")])])
              (Obj [("success", Bool true);
                    ("data", Obj [("referralCode", Str "NEW")])]))
    as (b1 & b2 & b3 & b4 & H1 & H2 & _ & H3 & _ & H4 & H5 & _);
    [reflexivity | discriminate | reflexivity | reflexivity
    | reflexivity | reflexivity | reflexivity |].
  exists b1, b2, b3, b4.
  split; [exact H1|]. split; [exact H2|]. split; [exact H3|]. split; [exact H4|].
  unfold code_shown. rewrite H5. reflexivity.
Defined.
